(** * InquirerPy fuzzy prompt: filtering, cursor and result assembly

    A shallow embedding of [InquirerPy/prompts/fuzzy/fuzzy.py]: the
    [InquirerPyFuzzyControl] that owns the candidates and the filtered
    view, and the [FuzzyPrompt] handlers that move the cursor, toggle
    candidates and assemble the result on Enter.

    Python objects are records, handlers are computations in a state and
    exception monad over the prompt, and the candidates shown in the
    filtered view are references into the list of all candidates, as the
    dictionaries of the source are shared between the two lists. *)

From stdpp Require Import base list strings.
From Stdlib Require Import ZArith Lia Sorted.

(** ** Python exceptions and primitive operations *)

Inductive exn : Set :=
  | IndexError
  | ZeroDivisionError
  | ValidationError
  | InvalidArgument.

#[global] Instance exn_eq_dec : EqDecision exn.
Proof. solve_decision. Defined.

(** The value of an expression: a value, or a raised exception. *)
Inductive exc (A : Type) : Type :=
  | Val (a : A)
  | Exn (e : exn).
Arguments Val {A} a.
Arguments Exn {A} e.

(** [l[i]] on a list: a negative [i] counts from the end, and an index
    outside [-len(l) .. len(l) - 1] raises [IndexError]. *)
Definition py_getitem {A : Type} (l : list A) (i : Z) : exc A :=
  let n := Z.of_nat (length l) in
  let j := if (i <? 0)%Z then (i + n)%Z else i in
  if ((0 <=? j) && (j <? n))%Z
  then match l !! Z.to_nat j with
       | Some a => Val a
       | None => Exn IndexError
       end
  else Exn IndexError.

(** [a % b] on ints: the sign of the result follows the divisor, and a
    zero divisor raises [ZeroDivisionError]. *)
Definition py_mod (a b : Z) : exc Z :=
  if (b =? 0)%Z then Exn ZeroDivisionError else Val (a mod b)%Z.

(** Truth value of a [str]: only the empty string is false. *)
Definition str_truthy (s : string) : bool :=
  match s with
  | EmptyString => false
  | String _ _ => true
  end.

(** Truth value of a list: only the empty list is false. *)
Definition list_truthy {A : Type} (l : list A) : bool :=
  match l with
  | [] => false
  | _ :: _ => true
  end.

Section Fuzzy.

(** The payload of a choice is opaque to the prompt. *)
Context {V : Type}.

(** ** Data model *)

(** [choice["value"]]: a [Separator] instance or any other object. *)
Inductive pyvalue : Type :=
  | Separator
  | Payload (v : V).

(** [isinstance(v, Separator)] *)
Definition is_separator (v : pyvalue) : bool :=
  match v with
  | Separator => true
  | Payload _ => false
  end.

(** A choice dictionary with the keys the control sets on it. *)
Record choice : Type := Choice {
  name : string;
  value : pyvalue;
  enabled : bool;
  index : nat;
}.

Definition set_enabled (b : bool) (c : choice) : choice :=
  {| name := name c; value := value c; enabled := b; index := index c |}.

(** The state of [InquirerPyFuzzyControl].  [choices] holds the
    dictionaries; [_filtered_choices] lists references to them, a
    reference being the position of the dictionary in [choices]. *)
Record InquirerPyFuzzyControl : Type := Control {
  choices : list choice;
  selected_choice_index : Z;
  _filtered_choices : list nat;
  _filtered_indices : list (list nat);
}.

(** The list object [self.choices] itself, seen as references. *)
Definition all_refs (cs : list choice) : list nat := seq 0 (length cs).

(** The matcher [fzy.fuzzy_match_py(query, choices)] is not part of the
    sources at hand.  It is a parameter: for a query and the candidates
    it returns the matched character positions of each surviving
    candidate and, parallel to them, the surviving candidates in ranked
    order (as references). *)
Context (fuzzy_match_py : string -> list choice -> list (list nat) * list nat).

(** ** [InquirerPyFuzzyControl] *)

(** The loop of [__init__] over [enumerate(self.choices)], on the
    (name, value) dictionaries the base class prepared. *)
Fixpoint init_choices (i : nat) (raw : list (string * pyvalue))
  : exc (list choice) :=
  match raw with
  | [] => Val []
  | (n, v) :: rest =>
      if is_separator v then Exn InvalidArgument
      else match init_choices (S i) rest with
           | Val cs => Val (Choice n v false i :: cs)
           | Exn e => Exn e
           end
  end.

(** [InquirerPyFuzzyControl.__init__].  The base class constructor (not
    in the sources) normalises the choices and sets
    [selected_choice_index] from the default; both are given here, so
    this is the constructor from the return of the base class on.  What
    the base class raises by itself, before the loop, is not part of
    it. *)
Definition InquirerPyFuzzyControl_init
    (raw : list (string * pyvalue)) (selected : Z)
  : exc InquirerPyFuzzyControl :=
  match init_choices 0 raw with
  | Val cs =>
      Val {| choices := cs;
             selected_choice_index := selected;
             _filtered_choices := all_refs cs;
             _filtered_indices := [] |}
  | Exn e => Exn e
  end.

(** [filter_choices], given the value of [self._current_text()]. *)
Definition filter_choices (current_text : string)
    (c : InquirerPyFuzzyControl) : InquirerPyFuzzyControl :=
  if negb (str_truthy current_text)
  then {| choices := choices c;
          selected_choice_index := selected_choice_index c;
          _filtered_choices := all_refs (choices c);
          _filtered_indices := _filtered_indices c |}
  else
    let '(indices, refs) := fuzzy_match_py current_text (choices c) in
    {| choices := choices c;
       selected_choice_index := selected_choice_index c;
       _filtered_choices := refs;
       _filtered_indices := indices |}.

(** Reading an entry of [_filtered_choices]: the dictionary the
    reference designates.  A reference designates a stored dictionary in
    every state the prompt reaches (see [refs_valid]); a dangling one
    has no counterpart in Python and is reported as [IndexError]. *)
Definition deref (c : InquirerPyFuzzyControl) (r : nat) : exc choice :=
  match choices c !! r with
  | Some ch => Val ch
  | None => Exn IndexError
  end.

(** The property [selection]:
    [self._filtered_choices[self.selected_choice_index]]. *)
Definition selection (c : InquirerPyFuzzyControl) : exc choice :=
  match py_getitem (_filtered_choices c) (selected_choice_index c) with
  | Val r => deref c r
  | Exn e => Exn e
  end.

(** The property [choice_count]: [len(self._filtered_choices)]. *)
Definition choice_count (c : InquirerPyFuzzyControl) : Z :=
  Z.of_nat (length (_filtered_choices c)).

(** The indices handed to the text of row [i] in
    [_get_formatted_choices]: [self._filtered_indices[i]], and [None]
    on [IndexError]; [None] and the empty list both mean no highlighted
    character. *)
Definition row_indices (c : InquirerPyFuzzyControl) (i : nat) : list nat :=
  match py_getitem (_filtered_indices c) (Z.of_nat i) with
  | Val ix => ix
  | Exn _ => []
  end.

(** ** [FuzzyPrompt] state *)

(** What the application returns: [None], the value of one choice, or a
    list of values. *)
Inductive answer : Type :=
  | ANone
  | AValue (v : pyvalue)
  | AList (vs : list pyvalue).

(** What [status["result"]] holds: [None], the name of one choice, or a
    list of names. *)
Inductive shown : Type :=
  | SNone
  | SName (n : string)
  | SNames (ns : list string).

(** The dictionary [self.status]. *)
Record status_dict : Type := Status {
  answered : bool;
  result : shown;
}.

(** The fields of [FuzzyPrompt] the handlers read and write.
    [_buffer_text] is [self._buffer.text]; [app_result] is what
    [event.app.exit(result=...)] was called with, if it was. *)
Record FuzzyPrompt : Type := Prompt {
  _content_control : InquirerPyFuzzyControl;
  _multiselect : bool;
  _invalid : bool;
  status : status_dict;
  _buffer_text : string;
  app_result : option answer;
}.

(** The validator of the base class: [validate] tells whether
    [self.validator.validate(document)] returns ([true]) or raises
    [ValidationError] ([false]) on a document with the given text. *)
Context (validate : answer -> bool).

Definition with_control (f : InquirerPyFuzzyControl -> InquirerPyFuzzyControl)
    (p : FuzzyPrompt) : FuzzyPrompt :=
  {| _content_control := f (_content_control p);
     _multiselect := _multiselect p;
     _invalid := _invalid p;
     status := status p;
     _buffer_text := _buffer_text p;
     app_result := app_result p |}.

Definition with_invalid (b : bool) (p : FuzzyPrompt) : FuzzyPrompt :=
  {| _content_control := _content_control p;
     _multiselect := _multiselect p;
     _invalid := b;
     status := status p;
     _buffer_text := _buffer_text p;
     app_result := app_result p |}.

Definition with_status (f : status_dict -> status_dict)
    (p : FuzzyPrompt) : FuzzyPrompt :=
  {| _content_control := _content_control p;
     _multiselect := _multiselect p;
     _invalid := _invalid p;
     status := f (status p);
     _buffer_text := _buffer_text p;
     app_result := app_result p |}.

Definition with_buffer_text (s : string) (p : FuzzyPrompt) : FuzzyPrompt :=
  {| _content_control := _content_control p;
     _multiselect := _multiselect p;
     _invalid := _invalid p;
     status := status p;
     _buffer_text := s;
     app_result := app_result p |}.

Definition with_app_result (r : answer) (p : FuzzyPrompt) : FuzzyPrompt :=
  {| _content_control := _content_control p;
     _multiselect := _multiselect p;
     _invalid := _invalid p;
     status := status p;
     _buffer_text := _buffer_text p;
     app_result := Some r |}.

Definition with_selected_choice_index (i : Z)
    (c : InquirerPyFuzzyControl) : InquirerPyFuzzyControl :=
  {| choices := choices c;
     selected_choice_index := i;
     _filtered_choices := _filtered_choices c;
     _filtered_indices := _filtered_indices c |}.

Definition with_choices (f : list choice -> list choice)
    (c : InquirerPyFuzzyControl) : InquirerPyFuzzyControl :=
  {| choices := f (choices c);
     selected_choice_index := selected_choice_index c;
     _filtered_choices := _filtered_choices c;
     _filtered_indices := _filtered_indices c |}.

(** ** Handlers as computations *)

(** The outcome of running a handler: it returns or raises, and in both
    cases leaves a prompt state behind. *)
Inductive outcome (A : Type) : Type :=
  | Ret (a : A) (p : FuzzyPrompt)
  | Raise (e : exn) (p : FuzzyPrompt).
Arguments Ret {A} a p.
Arguments Raise {A} e p.

Definition M (A : Type) : Type := FuzzyPrompt -> outcome A.

#[global] Instance M_ret : MRet M := fun A a p => Ret a p.

#[global] Instance M_bind : MBind M := fun A B k m p =>
  match m p with
  | Ret a p' => k a p'
  | Raise e p' => Raise e p'
  end.

(** Read an attribute. *)
Definition get {A : Type} (f : FuzzyPrompt -> A) : M A :=
  fun p => Ret (f p) p.

(** Evaluate an expression that may raise. *)
Definition eval {A : Type} (f : FuzzyPrompt -> exc A) : M A :=
  fun p => match f p with
           | Val a => Ret a p
           | Exn e => Raise e p
           end.

(** Assign to attributes. *)
Definition modify (f : FuzzyPrompt -> FuzzyPrompt) : M unit :=
  fun p => Ret tt (f p).

(** [try: body / except e: handler / else: orelse]: only [body] is
    guarded. *)
Definition try_except_else {A B : Type} (body : M A) (e : exn)
    (handler : M B) (orelse : A -> M B) : M B :=
  fun p => match body p with
           | Ret a p' => orelse a p'
           | Raise e' p' =>
               if decide (e' = e) then handler p' else Raise e' p'
           end.

(** [try: body / except e: handler] *)
Definition try_except {A : Type} (body : M A) (e : exn) (handler : M A) : M A :=
  try_except_else body e handler mret.

(** [if cond: body] *)
Definition when (cond : bool) (body : M unit) : M unit :=
  if cond then body else mret tt.

(** The property [content_control]. *)
Definition content_control (p : FuzzyPrompt) : InquirerPyFuzzyControl :=
  _content_control p.

(** [_get_current_text] *)
Definition _get_current_text (p : FuzzyPrompt) : string := _buffer_text p.

(** The property [selected_choices]. *)
Definition selected_choices (p : FuzzyPrompt) : list choice :=
  List.filter (fun choice => enabled choice) (choices (content_control p)).

(** The property [result_name]. *)
Definition result_name (p : FuzzyPrompt) : exc shown :=
  if _multiselect p
  then Val (SNames (map name (selected_choices p)))
  else match selection (content_control p) with
       | Val ch => Val (SName (name ch))
       | Exn e => Exn e
       end.

(** The property [result_value]. *)
Definition result_value (p : FuzzyPrompt) : exc answer :=
  if _multiselect p
  then Val (AList (map value (selected_choices p)))
  else match selection (content_control p) with
       | Val ch => Val (AValue (value ch))
       | Exn e => Exn e
       end.

(** The right-hand side of
    [choice["enabled"] = value if value else not choice["enabled"]]:
    the argument is tested for truth, and [None] and [False] are both
    false. *)
Definition toggled (given : option bool) (ch : choice) : bool :=
  match given with
  | Some b => if b then b else negb (enabled ch)
  | None => negb (enabled ch)
  end.

(** The body of the loop of [_toggle_all] for one choice. *)
Definition toggle_choice (given : option bool) (ch : choice) : choice :=
  if is_separator (value ch) then ch
  else set_enabled (toggled given ch) ch.

(** [_toggle_all(value)]; [None] is the default of the argument. *)
Definition _toggle_all (given : option bool) : M unit :=
  modify (with_control (with_choices (map (toggle_choice given)))).

(** [_on_text_changed] *)
Definition _on_text_changed : M unit :=
  invalid ← get _invalid;
  when invalid (modify (with_invalid false));;
  text ← get _get_current_text;
  modify (with_control (filter_choices text));;
  i ← get (fun p => selected_choice_index (content_control p));
  n ← get (fun p => choice_count (content_control p));
  when (i >? n - 1)%Z
    (modify (with_control (with_selected_choice_index (n - 1)%Z)));;
  i ← get (fun p => selected_choice_index (content_control p));
  when (i =? -1)%Z
    (modify (with_control (with_selected_choice_index 0%Z))).

(** [_handle_down] *)
Definition _handle_down : M unit :=
  i ← eval (fun p =>
         py_mod (selected_choice_index (content_control p) + 1)%Z
                (choice_count (content_control p)));
  modify (with_control (with_selected_choice_index i)).

(** [_handle_up] *)
Definition _handle_up : M unit :=
  i ← eval (fun p =>
         py_mod (selected_choice_index (content_control p) - 1)%Z
                (choice_count (content_control p)));
  modify (with_control (with_selected_choice_index i)).

(** [_handle_tab] *)
Definition _handle_tab : M unit :=
  sel ← eval (fun p => selection (content_control p));
  let current_selected_index := index sel in
  cur ← eval (fun p =>
           py_getitem (choices (content_control p))
                      (Z.of_nat current_selected_index));
  modify (with_control (with_choices
    (alter (set_enabled (negb (enabled cur))) current_selected_index))).

(** [event.app.exit(result=r)] *)
Definition app_exit (r : answer) : M unit := modify (with_app_result r).

Definition set_answered (b : bool) : M unit :=
  modify (with_status (fun s => {| answered := b; result := result s |})).

Definition set_result (r : shown) : M unit :=
  modify (with_status (fun s => {| answered := answered s; result := r |})).

(** [self.validator.validate(FakeDocument(text))] *)
Definition validator_validate (text : answer) : M unit :=
  fun p => if validate text then Ret tt p else Raise ValidationError p.

(** [_handle_enter] *)
Definition _handle_enter : M unit :=
  try_except_else
    (text ← eval result_value;
     validator_validate text)
    ValidationError
    (modify (with_invalid true))
    (fun _ =>
       try_except
         (multiselect ← get _multiselect;
          if multiselect : bool then
            set_answered true;;
            selected ← get selected_choices;
            if negb (list_truthy (selected : list choice)) then
              sel ← eval (fun p => selection (content_control p));
              set_result (SNames [name sel]);;
              sel ← eval (fun p => selection (content_control p));
              app_exit (AList [value sel])
            else
              names ← eval result_name;
              set_result names;;
              values ← eval result_value;
              app_exit values
          else
            set_answered true;;
            sel ← eval (fun p => selection (content_control p));
            set_result (SName (name sel));;
            sel ← eval (fun p => selection (content_control p));
            app_exit (AValue (value sel)))
         IndexError
         (set_answered true;;
          multiselect ← get _multiselect;
          set_result (if negb (multiselect : bool) then SNone else SNames []);;
          multiselect ← get _multiselect;
          app_exit (if negb (multiselect : bool) then ANone else AList []))).

(** ** Key bindings *)

Inductive key : Set :=
  | Enter
  | Tab
  | BackTab
  | Down
  | CtrlN
  | Up
  | CtrlP
  | EscapeA
  | EscapeR.

(** A binding registered with [filter=is_multiselect] is active only in
    multiselect mode; otherwise the key has no handler in the prompt. *)
Definition if_multiselect (h : M unit) : M unit :=
  fun p => if _multiselect p then h p else Ret tt p.

(** The handlers registered in [FuzzyPrompt.__init__]. *)
Definition key_binding (k : key) : M unit :=
  match k with
  | Enter => _handle_enter
  | Tab => if_multiselect (_handle_tab;; _handle_down)
  | BackTab => if_multiselect (_handle_tab;; _handle_up)
  | Down | CtrlN => _handle_down
  | Up | CtrlP => _handle_up
  | EscapeA => if_multiselect (_toggle_all (Some true))
  | EscapeR => if_multiselect (_toggle_all None)
  end.

(** A text change in the buffer: the buffer holds the new text when it
    fires [on_text_changed]. *)
Definition text_changed (new_text : string) : M unit :=
  modify (with_buffer_text new_text);;
  _on_text_changed.

(** The events the prompt reacts to: a key, or a change of the text of
    the buffer. *)
Inductive action : Type :=
  | KeyPress (k : key)
  | TextChange (new_text : string).

Definition step (a : action) : M unit :=
  match a with
  | KeyPress k => key_binding k
  | TextChange new_text => text_changed new_text
  end.

(** Events are handled one after another; an exception that leaves a
    handler ends the run. *)
Fixpoint run_actions (acts : list action) : M unit :=
  match acts with
  | [] => mret tt
  | a :: rest => step a;; run_actions rest
  end.

(** ** State invariants *)

(** No choice holds a [Separator]: [__init__] raises otherwise. *)
Definition no_separator (cs : list choice) : Prop :=
  Forall (fun ch => is_separator (value ch) = false) cs.

(** [choice["index"]] is the position of the choice in [choices]. *)
Definition indexed (cs : list choice) : Prop :=
  forall i ch, cs !! i = Some ch -> index ch = i.

(** Every entry of the filtered view designates a stored choice. *)
Definition refs_valid (c : InquirerPyFuzzyControl) : Prop :=
  Forall (fun r => r < length (choices c)) (_filtered_choices c).

(** The cursor invariant: [0 <= cursor < max(1, N)]. *)
Definition cursor_ok (c : InquirerPyFuzzyControl) : Prop :=
  (0 <= selected_choice_index c < Z.max 1 (choice_count c))%Z.

(** The candidate at [Filtered View[cursor]], when there is one. *)
Definition under_cursor (c : InquirerPyFuzzyControl) : option choice :=
  match _filtered_choices c !! Z.to_nat (selected_choice_index c) with
  | Some r => choices c !! r
  | None => None
  end.

(** The cursor [_on_text_changed] leaves for a cursor [i] and a view of
    [n] rows: its two tests in sequence. *)
Definition clamp_cursor (i n : Z) : Z :=
  let i1 := if (i >? n - 1)%Z then (n - 1)%Z else i in
  if (i1 =? -1)%Z then 0%Z else i1.

(** The invariant of the prompt state. *)
Definition prompt_ok (p : FuzzyPrompt) : Prop :=
  no_separator (choices (content_control p)) /\
  indexed (choices (content_control p)) /\
  refs_valid (content_control p) /\
  cursor_ok (content_control p).

(** The state a handler leaves behind, whether it returned or raised. *)
Definition state_of {A : Type} (o : outcome A) : FuzzyPrompt :=
  match o with
  | Ret _ p => p
  | Raise _ p => p
  end.

End Fuzzy.

Arguments Ret {V A} a p.
Arguments Raise {V A} e p.

(** ** Rendering of the choices *)

(** A piece of formatted text: a style and the text it applies to.
    Strings are sequences of characters; [len] and [enumerate] go by
    character. *)
Definition fragment : Type := string * string.

(** ["".join(l)] *)
Definition join_empty (l : list string) : string :=
  foldr String.append "" l.

(** The text of a list of fragments, styles left out. *)
Definition fragments_text (fs : list fragment) : string :=
  join_empty (map snd fs).

(** Whether a fragment is the cursor position marker of the hovered
    row. *)
Definition is_cursor_marker (f : fragment) : bool :=
  String.eqb (fst f) "[SetCursorPosition]".

(** The one-character string. *)
Definition char_string (c : Ascii.ascii) : string := String c EmptyString.

(** The string holding a line feed. *)
Definition newline : string := char_string (Ascii.ascii_of_nat 10).

(** [n * " "] *)
Definition spaces (n : nat) : string :=
  String.string_of_list_ascii (replicate n (Ascii.ascii_of_nat 32)).

(** Truth value of the [indices] argument: [None] and the empty list
    are false. *)
Definition indices_truthy (indices : option (list nat)) : bool :=
  match indices with
  | Some (_ :: _) => true
  | Some [] | None => false
  end.

(** The loop over [enumerate(choice["name"])], from position [index]
    on: a character whose position is in [indices] gets the style
    [class:fuzzy_match], any other the style [unmatched]. *)
Fixpoint highlight (unmatched : string) (indices : list nat) (index : nat)
    (s : string) : list fragment :=
  match s with
  | EmptyString => []
  | String char rest =>
      (if bool_decide (index ∈ indices)
       then ("class:fuzzy_match", char_string char)
       else (unmatched, char_string char))
      :: highlight unmatched indices (S index) rest
  end.

Section Rendering.

Context {V : Type}.

(** [self._pointer] and [self._marker]. *)
Context (_pointer _marker : string).

(** [_get_hover_text] *)
Definition _get_hover_text (choice : @choice V)
    (indices : option (list nat)) : list fragment :=
  [("class:pointer", _pointer);
   ("class:fuzzy_marker", if enabled choice then _marker else " ");
   ("[SetCursorPosition]", "")]
  ++ (if negb (indices_truthy indices)
      then [("class:pointer", name choice)]
      else highlight "class:pointer" (default [] indices) 0 (name choice)).

(** [_get_normal_text] *)
Definition _get_normal_text (choice : @choice V)
    (indices : option (list nat)) : list fragment :=
  [("class:pointer", spaces (String.length _pointer));
   ("class:fuzzy_marker", if enabled choice then _marker else " ")]
  ++ (if negb (indices_truthy indices)
      then [("", name choice)]
      else highlight "" (default [] indices) 0 (name choice)).

(** [self._filtered_indices[index]], and [None] on [IndexError]. *)
Definition filtered_indices_at (c : @InquirerPyFuzzyControl V)
    (index : nat) : option (list nat) :=
  match py_getitem (_filtered_indices c) (Z.of_nat index) with
  | Val indices => Some indices
  | Exn _ => None
  end.

(** The loop of [_get_formatted_choices] over
    [enumerate(self._filtered_choices)], from position [index] on. *)
Fixpoint format_rows (c : @InquirerPyFuzzyControl V) (index : nat)
    (view : list (@choice V)) : list fragment :=
  match view with
  | [] => []
  | choice :: rest =>
      (if (Z.of_nat index =? selected_choice_index c)%Z
       then _get_hover_text choice (filtered_indices_at c index)
       else _get_normal_text choice (filtered_indices_at c index))
      ++ [("", newline)]
      ++ format_rows c (S index) rest
  end.

(** The dictionaries the entries of a view designate. *)
Fixpoint deref_all (c : @InquirerPyFuzzyControl V) (refs : list nat)
  : exc (list (@choice V)) :=
  match refs with
  | [] => Val []
  | r :: rest =>
      match deref c r, deref_all c rest with
      | Val ch, Val chs => Val (ch :: chs)
      | Exn e, _ => Exn e
      | _, Exn e => Exn e
      end
  end.

(** [_get_formatted_choices]: the rows, and the last line feed popped
    when there is a row. *)
Definition _get_formatted_choices (c : @InquirerPyFuzzyControl V)
  : exc (list fragment) :=
  match deref_all c (_filtered_choices c) with
  | Val view =>
      let display_choices := format_rows c 0 view in
      Val (if list_truthy display_choices
           then removelast display_choices
           else display_choices)
  | Exn e => Exn e
  end.

(** The text of row [index] with the styles left out: the pointer on
    the row of the cursor and as many spaces on any other row, then the
    marker or a space, then the name. *)
Definition row_text (c : @InquirerPyFuzzyControl V) (index : nat)
    (choice : @choice V) : string :=
  (if (Z.of_nat index =? selected_choice_index c)%Z
   then _pointer else spaces (String.length _pointer))
  +:+ (if enabled choice then _marker else " ")
  +:+ name choice.

End Rendering.

(** The prompt after Enter answered with [r], shown as [s]. *)
Definition answered_with {V : Type} (r : @answer V) (s : shown)
    (p : @FuzzyPrompt V) : @FuzzyPrompt V :=
  with_app_result r
    (with_status (fun _ => {| answered := true; result := s |}) p).

(** ** [SecretPrompt] *)

(** ["".join(["*" for _ in s])] *)
Definition stars_for (s : string) : string :=
  join_empty (map (fun _ => "*") (String.list_ascii_of_string s)).

(** [" %s" % result] for a result that is [None] or a [str]. *)
Definition format_result (result : option string) : string :=
  match result with
  | Some s => " " +:+ s
  | None => " None"
  end.

(** Truth value of [status["result"]]: [None] and the empty string are
    false. *)
Definition result_truthy (result : option string) : bool :=
  match result with
  | Some s => str_truthy s
  | None => false
  end.

(** [SecretPrompt._get_prompt_message]: the two fragments it hands to
    the base class, given whether a transformer is set and the value of
    [status["result"]]. *)
Definition SecretPrompt_get_prompt_message (has_transformer : bool)
    (result : option string) : fragment * fragment :=
  let pre_answer := ("class:instruction", " ") in
  let post_answer :=
    if negb has_transformer
    then ("class:answer",
          if negb (result_truthy result) then ""
          else " " +:+ stars_for (default "" result))
    else ("class:answer", format_result result) in
  (pre_answer, post_answer).

(** ** Sample data *)

(** Three fruits, each with its name as value. *)
Definition fruits : list (string * @pyvalue string) :=
  [("apple", Payload "apple"); ("banana", Payload "banana");
   ("grape", Payload "grape")].

(** Modelled from the spec: the matcher [fzy.fuzzy_match_py] is not in
    the sources.  On the fruits, the query [ap] keeps apple (matched at
    positions 0, 1) and grape (matched at 2, 3), apple first; this
    sample keeps no candidate for any other query. *)
Definition sample_match (query : string) (cs : list (@choice string))
  : list (list nat) * list nat :=
  if String.eqb query "ap" then ([[0; 1]; [2; 3]], [0; 2]) else ([], []).

(** The sample matcher, keeping only candidates out of the list it was
    given. *)
Definition sample_match_in_range (query : string)
    (cs : list (@choice string)) : list (list nat) * list nat :=
  let '(indices, refs) := sample_match query cs in
  let kept :=
    List.filter (fun ir => snd ir <? length cs) (combine indices refs) in
  (map fst kept, map snd kept).

(** A validator that accepts every document, and one that rejects
    every document. *)
Definition accept_all (text : @answer string) : bool := true.
Definition reject_all (text : @answer string) : bool := false.

(** A validator that wants something selected: it rejects the empty
    list and accepts every other document. *)
Definition accept_nonempty (text : @answer string) : bool :=
  match text with
  | AList [] => false
  | _ => true
  end.

(** The choices and the control [__init__] builds from [fruits]. *)
Definition fruit_choices : list (@choice string) :=
  [Choice "apple" (Payload "apple") false 0;
   Choice "banana" (Payload "banana") false 1;
   Choice "grape" (Payload "grape") false 2].

Definition fruit_control : @InquirerPyFuzzyControl string :=
  {| choices := fruit_choices;
     selected_choice_index := 0;
     _filtered_choices := [0; 1; 2];
     _filtered_indices := [] |}.

(** A fresh prompt over the fruits. *)
Definition fruit_prompt (multiselect : bool) : @FuzzyPrompt string :=
  {| _content_control := fruit_control;
     _multiselect := multiselect;
     _invalid := false;
     status := {| answered := false; result := SNone |};
     _buffer_text := "";
     app_result := None |}.

(** The prompt after the query [xyz] emptied the filtered view. *)
Definition fruit_prompt_xyz (multiselect : bool) : @FuzzyPrompt string :=
  {| _content_control :=
       {| choices := fruit_choices;
          selected_choice_index := 0;
          _filtered_choices := [];
          _filtered_indices := [] |};
     _multiselect := multiselect;
     _invalid := false;
     status := {| answered := false; result := SNone |};
     _buffer_text := "xyz";
     app_result := None |}.

(** A fresh prompt over the fruits with the cursor on row [i]. *)
Definition fruit_prompt_at (multiselect : bool) (i : Z)
  : @FuzzyPrompt string :=
  {| _content_control :=
       {| choices := fruit_choices;
          selected_choice_index := i;
          _filtered_choices := [0; 1; 2];
          _filtered_indices := [] |};
     _multiselect := multiselect;
     _invalid := false;
     status := {| answered := false; result := SNone |};
     _buffer_text := "";
     app_result := None |}.

(** A multiselect prompt in which banana and grape are enabled, and
    whose filtered view shows grape before apple. *)
Definition fruit_prompt_marked : @FuzzyPrompt string :=
  {| _content_control :=
       {| choices :=
            [Choice "apple" (Payload "apple") false 0;
             Choice "banana" (Payload "banana") true 1;
             Choice "grape" (Payload "grape") true 2];
          selected_choice_index := 0;
          _filtered_choices := [2; 0];
          _filtered_indices := [[3]; [1]] |};
     _multiselect := true;
     _invalid := false;
     status := {| answered := false; result := SNone |};
     _buffer_text := "p";
     app_result := None |}.

(** * Properties *)

Example fruit_control_init :
  InquirerPyFuzzyControl_init fruits 0 = Val fruit_control.
Proof. reflexivity. Qed.

Example fruit_prompt_xyz_reached multiselect :
  text_changed sample_match "xyz" (fruit_prompt multiselect)
  = Ret tt (fruit_prompt_xyz multiselect).
Proof. destruct multiselect; reflexivity. Qed.

(** Unfold a handler down to the state it computes. *)
Ltac run_handler :=
  unfold text_changed, _on_text_changed, _handle_down, _handle_up,
    _handle_tab, _handle_enter, _toggle_all, key_binding, if_multiselect,
    try_except, try_except_else, validator_validate, app_exit,
    set_answered, set_result, when, get, eval, modify,
    mbind, M_bind, mret, M_ret; cbn.

Section FuzzyProperties.

Context {V : Type}.
Context (fuzzy_match_py :
  string -> list (@choice V) -> list (list nat) * list nat).
Context (validate : @answer V -> bool).

Implicit Types (p : @FuzzyPrompt V) (c : @InquirerPyFuzzyControl V).
Implicit Types (cs : list (@choice V)) (ch : @choice V).

(** *** Primitive operations *)

Lemma py_getitem_nil {A : Type} (i : Z) :
  py_getitem ([] : list A) i = Exn IndexError.
Proof.
  unfold py_getitem; cbn [length].
  destruct (i <? 0)%Z eqn:Hneg;
    destruct (_ && _) eqn:Hin; try reflexivity; lia.
Qed.

Lemma py_getitem_lookup {A : Type} (l : list A) (i : Z) (a : A) :
  (0 <= i)%Z -> l !! Z.to_nat i = Some a -> py_getitem l i = Val a.
Proof.
  intros Hi Hl. unfold py_getitem.
  apply lookup_lt_Some in Hl as Hlt.
  replace (i <? 0)%Z with false by lia.
  replace ((0 <=? i) && (i <? Z.of_nat (length l)))%Z with true by lia.
  now rewrite Hl.
Qed.

Lemma py_getitem_nat {A : Type} (l : list A) (i : nat) (a : A) :
  l !! i = Some a -> py_getitem l (Z.of_nat i) = Val a.
Proof.
  intros Hl. apply py_getitem_lookup; [lia | now rewrite Nat2Z.id].
Qed.

Lemma py_mod_zero (a : Z) : py_mod a 0 = Exn ZeroDivisionError.
Proof. reflexivity. Qed.

Lemma py_mod_pos (a b : Z) :
  (0 < b)%Z -> py_mod a b = Val (a mod b)%Z.
Proof. intros Hb. unfold py_mod. now replace (b =? 0)%Z with false by lia. Qed.

(** *** Construction *)

Lemma init_choices_spec (raw : list (string * @pyvalue V)) :
  forall k cs,
    init_choices k raw = Val cs ->
    length cs = length raw /\
    no_separator cs /\
    Forall (fun ch => enabled ch = false) cs /\
    (forall i ch, cs !! i = Some ch -> index ch = k + i).
Proof.
  induction raw as [|[n v] raw IH]; intros k cs Hinit; cbn in Hinit.
  - injection Hinit as <-. repeat split; try constructor.
    intros i ch Hl. now rewrite lookup_nil in Hl.
  - destruct (is_separator v) eqn:Hsep; [discriminate|].
    destruct (init_choices (S k) raw) as [cs'|e] eqn:Hrest; [|discriminate].
    injection Hinit as <-.
    destruct (IH _ _ Hrest) as (Hlen & Hns & Hdis & Hidx).
    repeat split.
    + cbn. now rewrite Hlen.
    + constructor; [exact Hsep | exact Hns].
    + constructor; [reflexivity | exact Hdis].
    + intros [|i] ch Hl; cbn in Hl.
      * injection Hl as <-. cbn. lia.
      * apply Hidx in Hl. lia.
Qed.

Lemma all_refs_valid cs : Forall (fun r => r < length cs) (all_refs cs).
Proof.
  unfold all_refs. apply Forall_forall. intros r Hr.
  apply elem_of_seq in Hr. lia.
Qed.

(** A constructed control has no separator, every choice disabled and
    indexed by its position, and shows every choice. *)
Lemma InquirerPyFuzzyControl_init_spec raw selected c :
  InquirerPyFuzzyControl_init raw selected = Val c ->
  no_separator (choices c) /\
  Forall (fun ch => enabled ch = false) (choices c) /\
  indexed (choices c) /\
  refs_valid c /\
  _filtered_choices c = all_refs (choices c) /\
  _filtered_indices c = [].
Proof.
  unfold InquirerPyFuzzyControl_init.
  destruct (init_choices 0 raw) as [cs|e] eqn:Hinit; [|discriminate].
  intros [= <-]; cbn.
  destruct (init_choices_spec _ _ _ Hinit) as (_ & Hns & Hdis & Hidx).
  split; [exact Hns|]. split; [exact Hdis|]. split.
  { intros i ch Hl. now apply Hidx in Hl. }
  split; [apply all_refs_valid|]. split; reflexivity.
Qed.

(** A separator among the choices is rejected. *)
Lemma init_choices_separator (raw : list (string * @pyvalue V)) :
  forall k, Exists (fun nv => is_separator (snd nv) = true) raw ->
    init_choices k raw = Exn InvalidArgument.
Proof.
  induction raw as [|[n v] raw IH]; intros k Hex; [inversion Hex|].
  cbn. destruct (is_separator v) eqn:Hsep; [reflexivity|].
  inversion Hex as [? ? Hhd|? ? Htl]; subst; cbn in *; [congruence|].
  now rewrite IH.
Qed.

(** *** Filtering *)

Lemma filter_choices_empty c :
  filter_choices fuzzy_match_py "" c
  = {| choices := choices c;
       selected_choice_index := selected_choice_index c;
       _filtered_choices := all_refs (choices c);
       _filtered_indices := _filtered_indices c |}.
Proof. reflexivity. Qed.

Lemma filter_choices_query a q c :
  filter_choices fuzzy_match_py (String a q) c
  = {| choices := choices c;
       selected_choice_index := selected_choice_index c;
       _filtered_choices := snd (fuzzy_match_py (String a q) (choices c));
       _filtered_indices := fst (fuzzy_match_py (String a q) (choices c)) |}.
Proof.
  unfold filter_choices; cbn.
  now destruct (fuzzy_match_py (String a q) (choices c)).
Qed.

Lemma filter_choices_frame text c :
  choices (filter_choices fuzzy_match_py text c) = choices c /\
  selected_choice_index (filter_choices fuzzy_match_py text c)
  = selected_choice_index c.
Proof.
  destruct text as [|a q].
  - now rewrite filter_choices_empty.
  - now rewrite filter_choices_query.
Qed.

(** With an empty text the matcher plays no part, the view is the
    list of all choices, and [_filtered_indices] is left as it was. *)
Lemma filter_choices_empty_view fuzzy_match_py' c :
  filter_choices fuzzy_match_py "" c = filter_choices fuzzy_match_py' "" c /\
  _filtered_choices (filter_choices fuzzy_match_py "" c)
  = all_refs (choices c) /\
  _filtered_indices (filter_choices fuzzy_match_py "" c)
  = _filtered_indices c.
Proof. repeat split. Qed.

(** On a control as constructed, no row has highlighted characters. *)
Lemma row_indices_initial c i :
  _filtered_indices c = [] -> row_indices c i = [].
Proof. unfold row_indices. intros ->. now rewrite py_getitem_nil. Qed.

(** *** The candidate under the cursor *)

Lemma under_cursor_selection c ch :
  (0 <= selected_choice_index c)%Z ->
  under_cursor c = Some ch -> selection c = Val ch.
Proof.
  unfold under_cursor, selection, deref. intros Hi Hu.
  destruct (_filtered_choices c !! _) as [r|] eqn:Hr; [|discriminate].
  rewrite (py_getitem_lookup _ _ _ Hi Hr). now rewrite Hu.
Qed.

Lemma under_cursor_exists c :
  refs_valid c -> cursor_ok c -> _filtered_choices c <> [] ->
  exists r ch,
    _filtered_choices c !! Z.to_nat (selected_choice_index c) = Some r /\
    choices c !! r = Some ch /\
    under_cursor c = Some ch.
Proof.
  unfold refs_valid, cursor_ok, choice_count, under_cursor.
  intros Hrefs Hcur Hne.
  assert (0 < length (_filtered_choices c)) as Hpos.
  { destruct (_filtered_choices c); [congruence | cbn; lia]. }
  destruct (lookup_lt_is_Some_2 (_filtered_choices c)
              (Z.to_nat (selected_choice_index c))) as [r Hr]; [lia|].
  assert (r < length (choices c)) as Hlt.
  { rewrite Forall_forall in Hrefs. apply Hrefs.
    apply list_elem_of_lookup. eauto. }
  destruct (lookup_lt_is_Some_2 _ _ Hlt) as [ch Hch].
  exists r, ch. rewrite Hr. auto.
Qed.

Lemma selection_empty c :
  _filtered_choices c = [] -> selection c = Exn IndexError.
Proof. unfold selection. intros ->. now rewrite py_getitem_nil. Qed.


(** The state [_on_text_changed] computes. *)
Lemma on_text_changed_run p :
  _on_text_changed fuzzy_match_py p
  = Ret tt (with_control
      (fun _ =>
         let c' := filter_choices fuzzy_match_py (_buffer_text p)
                     (content_control p) in
         with_selected_choice_index
           (clamp_cursor (selected_choice_index c') (choice_count c')) c')
      (with_invalid false p)).
Proof.
  destruct p as [c multi inv st text res].
  assert (exists refs ixs,
    filter_choices fuzzy_match_py text c
    = {| choices := choices c;
         selected_choice_index := selected_choice_index c;
         _filtered_choices := refs;
         _filtered_indices := ixs |}) as (refs & ixs & Hform).
  { destruct text as [|a q];
      [rewrite filter_choices_empty | rewrite filter_choices_query]; eauto. }
  unfold _on_text_changed, when, get, modify, mbind, M_bind, mret, M_ret,
    _get_current_text, content_control, clamp_cursor, with_control,
    with_invalid.
  destruct inv; cbn -[filter_choices]; rewrite ?Hform;
    unfold choice_count; cbn;
    match goal with
    | |- context [(?x >? ?y)%Z] => destruct (x >? y)%Z
    end; cbn -[filter_choices]; rewrite ?Hform; cbn;
    match goal with
    | |- context [(?x =? -1)%Z] => destruct (x =? -1)%Z
    end; cbn -[filter_choices]; rewrite ?Hform; reflexivity.
Qed.

Lemma clamp_cursor_spec (i n : Z) :
  (-1 <= i)%Z -> (0 <= n)%Z ->
  (0 <= clamp_cursor i n < Z.max 1 n)%Z /\
  (i > n - 1 -> 0 < n -> clamp_cursor i n = n - 1)%Z /\
  (n = 0 -> clamp_cursor i n = 0)%Z /\
  (0 <= i <= n - 1 -> clamp_cursor i n = i)%Z.
Proof.
  intros Hi Hn. unfold clamp_cursor.
  destruct (i >? n - 1)%Z eqn:Hgt; cbn zeta;
    match goal with
    | |- context [(?x =? -1)%Z] => destruct (x =? -1)%Z eqn:Heq
    end; lia.
Qed.

(** C5.  After [_on_text_changed], whatever the new text, the cursor
    satisfies [0 <= cursor < max(1, N)] for the length [N] of the new
    filtered view: a cursor above [N - 1] is set to [N - 1], a cursor
    that ends at [-1] (the view became empty) is set to [0], and a
    cursor already inside the view is kept.  The cursor before the
    event is any value from [-1] up, which covers every cursor the
    handlers produce. *)
Theorem on_text_changed_cursor p :
  (-1 <= selected_choice_index (content_control p))%Z ->
  exists p',
    _on_text_changed fuzzy_match_py p = Ret tt p' /\
    _filtered_choices (content_control p')
    = _filtered_choices
        (filter_choices fuzzy_match_py (_buffer_text p) (content_control p)) /\
    let i := selected_choice_index (content_control p) in
    let N := choice_count (content_control p') in
    let i' := selected_choice_index (content_control p') in
    (0 <= i' < Z.max 1 N)%Z /\
    (i > N - 1 -> 0 < N -> i' = N - 1)%Z /\
    (N = 0 -> i' = 0)%Z /\
    (0 <= i <= N - 1 -> i' = i)%Z.
Proof.
  intros Hi. eexists. split; [apply on_text_changed_run|].
  split; [reflexivity|]. cbn. unfold content_control in *.
  destruct (filter_choices_frame (_buffer_text p) (_content_control p))
    as [_ Hsel].
  rewrite Hsel. unfold choice_count at 1 3 5 7 8; cbn.
  apply clamp_cursor_spec; [exact Hi | unfold choice_count; lia].
Qed.

(** The cursor [_on_text_changed] leaves, in terms of the new view. *)
Lemma on_text_changed_clamps p :
  exists p',
    _on_text_changed fuzzy_match_py p = Ret tt p' /\
    selected_choice_index (content_control p')
    = clamp_cursor (selected_choice_index (content_control p))
        (choice_count (content_control p')).
Proof.
  eexists. split; [apply on_text_changed_run|].
  cbn. unfold content_control.
  destruct (filter_choices_frame (_buffer_text p) (_content_control p))
    as [_ Hsel].
  now rewrite Hsel.
Qed.

Lemma clamp_cursor_zero (n : Z) : (0 <= n)%Z -> clamp_cursor 0 n = 0%Z.
Proof.
  intros Hn. unfold clamp_cursor.
  destruct (0 >? n - 1)%Z eqn:Hgt; cbn zeta; [|reflexivity].
  destruct (n - 1 =? -1)%Z eqn:Heq; lia.
Qed.

(** The view becomes empty and then non-empty again: the cursor is 0
    after the first change and stays 0, a valid row, after the second. *)
Lemma cursor_after_empty_view p p1 :
  (-1 <= selected_choice_index (content_control p))%Z ->
  _on_text_changed fuzzy_match_py p = Ret tt p1 ->
  _filtered_choices (content_control p1) = [] ->
  selected_choice_index (content_control p1) = 0%Z /\
  forall text, exists p2,
    text_changed fuzzy_match_py text p1 = Ret tt p2 /\
    selected_choice_index (content_control p2) = 0%Z.
Proof.
  intros Hi Hrun Hempty.
  destruct (on_text_changed_clamps p) as (p1' & Hrun' & Hcur).
  rewrite Hrun in Hrun'. injection Hrun' as <-.
  assert (selected_choice_index (content_control p1) = 0%Z) as Hzero.
  { rewrite Hcur. unfold choice_count. rewrite Hempty. cbn [length].
    apply clamp_cursor_spec; lia. }
  split; [exact Hzero|]. intros text.
  destruct (on_text_changed_clamps (with_buffer_text text p1))
    as (p2 & Hrun2 & Hcur2).
  exists p2. split; [exact Hrun2|].
  rewrite Hcur2. cbn. unfold content_control in *. rewrite Hzero.
  apply clamp_cursor_zero. unfold choice_count. lia.
Qed.

Lemma handle_down_empty p :
  _filtered_choices (content_control p) = [] ->
  _handle_down p = Raise ZeroDivisionError p.
Proof.
  intros Hempty. run_handler. unfold choice_count, content_control in *.
  now rewrite Hempty.
Qed.

Lemma handle_up_empty p :
  _filtered_choices (content_control p) = [] ->
  _handle_up p = Raise ZeroDivisionError p.
Proof.
  intros Hempty. run_handler. unfold choice_count, content_control in *.
  now rewrite Hempty.
Qed.

Lemma handle_down_nonempty p :
  _filtered_choices (content_control p) <> [] ->
  _handle_down p
  = Ret tt (with_control (with_selected_choice_index
      ((selected_choice_index (content_control p) + 1)
         mod choice_count (content_control p))%Z) p).
Proof.
  intros Hne. run_handler. rewrite py_mod_pos; [reflexivity|].
  unfold choice_count. destruct (_filtered_choices _); [congruence|cbn; lia].
Qed.

Lemma handle_up_nonempty p :
  _filtered_choices (content_control p) <> [] ->
  _handle_up p
  = Ret tt (with_control (with_selected_choice_index
      ((selected_choice_index (content_control p) - 1)
         mod choice_count (content_control p))%Z) p).
Proof.
  intros Hne. run_handler. rewrite py_mod_pos; [reflexivity|].
  unfold choice_count. destruct (_filtered_choices _); [congruence|cbn; lia].
Qed.

(** C9.  When the validator rejects the would-be result, Enter sets
    [_invalid] and returns: the control (cursor, filtered view, enabled
    flags), the status (answered, result), the buffer and the
    application result are what they were, so no result is produced. *)
Theorem handle_enter_validation_failure p text :
  result_value p = Val text ->
  validate text = false ->
  exists p',
    _handle_enter validate p = Ret tt p' /\
    _invalid p' = true /\
    content_control p' = content_control p /\
    _multiselect p' = _multiselect p /\
    status p' = status p /\
    _buffer_text p' = _buffer_text p /\
    app_result p' = app_result p.
Proof.
  intros Hval Hrej. exists (with_invalid true p). split; [|now repeat split].
  run_handler. rewrite Hval, Hrej. reflexivity.
Qed.

Lemma handle_enter_single_empty p :
  _multiselect p = false ->
  _filtered_choices (content_control p) = [] ->
  _handle_enter validate p = Raise IndexError p.
Proof.
  intros Hsingle Hempty. run_handler. unfold result_value.
  rewrite Hsingle, (selection_empty _ Hempty). reflexivity.
Qed.

Lemma handle_enter_single_selection p ch :
  _multiselect p = false ->
  selection (content_control p) = Val ch ->
  validate (AValue (value ch)) = true ->
  _handle_enter validate p
  = Ret tt (with_app_result (AValue (value ch))
      (with_status (fun _ => {| answered := true; result := SName (name ch) |})
         p)).
Proof.
  intros Hsingle Hsel Hok. run_handler. unfold result_value.
  rewrite Hsingle, Hsel, Hok. cbn. unfold content_control in *; cbn.
  rewrite Hsingle. cbn. rewrite Hsel. cbn. rewrite Hsel. reflexivity.
Qed.


Lemma selected_choices_none p :
  Forall (fun ch => enabled ch = false) (choices (content_control p)) ->
  selected_choices p = [].
Proof.
  unfold selected_choices. induction 1 as [|ch cs Hch _ IH]; [reflexivity|].
  cbn. now rewrite Hch.
Qed.

Lemma selected_choices_some p :
  Exists (fun ch => enabled ch = true) (choices (content_control p)) ->
  selected_choices p <> [].
Proof.
  unfold selected_choices. induction 1 as [ch cs Hch|ch cs _ IH]; cbn.
  - now rewrite Hch.
  - destruct (enabled ch); [discriminate | exact IH].
Qed.

Lemma selected_choices_elem p ch :
  ch ∈ selected_choices p <->
  ch ∈ choices (content_control p) /\ enabled ch = true.
Proof.
  unfold selected_choices. rewrite !list_elem_of_In, filter_In.
  reflexivity.
Qed.

Lemma filter_enabled_sorted cs :
  forall k,
    (forall i ch, cs !! i = Some ch -> index ch = k + i) ->
    StronglySorted lt (map index (List.filter (fun ch => enabled ch) cs)) /\
    Forall (fun ch => k <= index ch) (List.filter (fun ch => enabled ch) cs).
Proof.
  induction cs as [|ch cs IH]; intros k Hidx; cbn.
  - split; constructor.
  - destruct (IH (S k)) as [Hsorted Hlow].
    { intros i ch' Hl. specialize (Hidx (S i) ch' Hl). lia. }
    specialize (Hidx 0 ch eq_refl).
    destruct (enabled ch); cbn.
    + split.
      * constructor; [exact Hsorted|].
        apply Forall_map. eapply Forall_impl; [exact Hlow|].
        cbn. intros; lia.
      * constructor; [lia|]. eapply Forall_impl; [exact Hlow|].
        cbn. intros; lia.
    + split; [exact Hsorted|]. eapply Forall_impl; [exact Hlow|].
      cbn. intros; lia.
Qed.

Lemma selected_choices_sorted p :
  indexed (choices (content_control p)) ->
  StronglySorted lt (map index (selected_choices p)).
Proof. intros Hidx. now apply (filter_enabled_sorted _ 0). Qed.

(** With no choice enabled the document Enter validates is the empty
    list; when the validator accepts it, Enter exits with the
    one-element list holding the value of the choice under the cursor,
    and records its name as the result. *)
Theorem handle_enter_multiselect_none_enabled p :
  _multiselect p = true ->
  refs_valid (content_control p) ->
  cursor_ok (content_control p) ->
  _filtered_choices (content_control p) <> [] ->
  Forall (fun ch => enabled ch = false) (choices (content_control p)) ->
  validate (AList []) = true ->
  exists ch,
    under_cursor (content_control p) = Some ch /\
    _handle_enter validate p
    = Ret tt (with_app_result (AList [value ch])
        (with_status
           (fun _ => {| answered := true; result := SNames [name ch] |}) p)).
Proof.
  intros Hmulti Hrefs Hcur Hne Hnone Hok.
  destruct (under_cursor_exists _ Hrefs Hcur Hne) as (r & ch & _ & _ & Hu).
  exists ch. split; [exact Hu|].
  apply under_cursor_selection in Hu; [|apply Hcur].
  apply selected_choices_none in Hnone.
  run_handler. unfold result_value. rewrite Hmulti, Hnone. cbn.
  rewrite Hok. cbn. unfold selected_choices, content_control in *; cbn.
  rewrite Hmulti. cbn. rewrite Hnone. cbn. rewrite Hu. cbn. rewrite Hu.
  reflexivity.
Qed.

(** C8.  In multiselect mode, with at least one choice enabled, Enter
    (the validator accepting) exits with the values of [selected_choices]:
    exactly the enabled choices, in increasing [index], that is in the
    order of [choices]; the filtered view and the cursor play no part. *)
Theorem handle_enter_multiselect_enabled p :
  _multiselect p = true ->
  indexed (choices (content_control p)) ->
  Exists (fun ch => enabled ch = true) (choices (content_control p)) ->
  validate (AList (map value (selected_choices p))) = true ->
  _handle_enter validate p
  = Ret tt (with_app_result (AList (map value (selected_choices p)))
      (with_status
         (fun _ => {| answered := true;
                      result := SNames (map name (selected_choices p)) |})
         p)) /\
  (forall ch, ch ∈ selected_choices p <->
              ch ∈ choices (content_control p) /\ enabled ch = true) /\
  StronglySorted lt (map index (selected_choices p)).
Proof.
  intros Hmulti Hidx Hsome Hok.
  split; [|split; [apply selected_choices_elem
                  |now apply selected_choices_sorted]].
  apply selected_choices_some in Hsome.
  run_handler. unfold result_value, result_name. rewrite Hmulti, Hok. cbn.
  unfold selected_choices, content_control in *; cbn. rewrite Hmulti. cbn.
  destruct (List.filter _ _) as [|ch0 sel] eqn:Hsel; [congruence|].
  repeat (cbn; rewrite ?Hmulti, ?Hsel). reflexivity.
Qed.
(** *** Toggling *)

Lemma handle_tab_run p r ch :
  (0 <= selected_choice_index (content_control p))%Z ->
  _filtered_choices (content_control p)
    !! Z.to_nat (selected_choice_index (content_control p)) = Some r ->
  choices (content_control p) !! r = Some ch ->
  indexed (choices (content_control p)) ->
  _handle_tab p
  = Ret tt (with_control
      (with_choices (alter (set_enabled (negb (enabled ch))) r)) p).
Proof.
  intros Hi Hr Hch Hidx. run_handler.
  unfold selection, deref, content_control in *.
  rewrite (py_getitem_lookup _ _ _ Hi Hr), Hch.
  rewrite (Hidx _ _ Hch), (py_getitem_nat _ _ _ Hch). reflexivity.
Qed.

(** C10.  In multiselect mode with a non-empty filtered view, Tab
    negates [enabled] of the choice under the cursor and then moves the
    cursor to [(cursor + 1) % N]; BackTab negates the flag and moves the
    cursor to [(cursor - 1) % N]. *)
Theorem tab_toggles_then_moves p :
  _multiselect p = true ->
  refs_valid (content_control p) ->
  indexed (choices (content_control p)) ->
  cursor_ok (content_control p) ->
  _filtered_choices (content_control p) <> [] ->
  exists r ch,
    _filtered_choices (content_control p)
      !! Z.to_nat (selected_choice_index (content_control p)) = Some r /\
    choices (content_control p) !! r = Some ch /\
    let i := selected_choice_index (content_control p) in
    let N := choice_count (content_control p) in
    let flip := with_choices (alter (set_enabled (negb (enabled ch))) r) in
    key_binding validate Tab p
    = Ret tt (with_control
        (fun c => with_selected_choice_index ((i + 1) mod N)%Z (flip c)) p) /\
    key_binding validate BackTab p
    = Ret tt (with_control
        (fun c => with_selected_choice_index ((i - 1) mod N)%Z (flip c)) p).
Proof.
  intros Hmulti Hrefs Hidx Hcur Hne.
  destruct (under_cursor_exists _ Hrefs Hcur Hne) as (r & ch & Hr & Hch & _).
  exists r, ch. split; [exact Hr|]. split; [exact Hch|].
  pose proof (handle_tab_run p r ch (proj1 Hcur) Hr Hch Hidx) as Htab.
  set (p1 := with_control
               (with_choices (alter (set_enabled (negb (enabled ch))) r)) p).
  assert (_filtered_choices (content_control p1) <> []) as Hne1 by exact Hne.
  cbn zeta. unfold key_binding, if_multiselect. rewrite Hmulti.
  unfold mbind, M_bind. rewrite Htab. fold p1.
  rewrite (handle_down_nonempty p1 Hne1), (handle_up_nonempty p1 Hne1).
  split; reflexivity.
Qed.

Lemma toggle_all_run given p :
  _toggle_all given p
  = Ret tt (with_control (with_choices (map (toggle_choice given))) p).
Proof. reflexivity. Qed.

(** [_toggle_all(True)] enables every choice. *)
Lemma toggle_all_true cs :
  no_separator cs ->
  map (toggle_choice (Some true)) cs = map (set_enabled true) cs.
Proof.
  induction 1 as [|ch cs Hch _ IH]; [reflexivity|].
  cbn. unfold toggle_choice at 1. rewrite Hch, IH. reflexivity.
Qed.

(** [_toggle_all()] flips every choice by itself. *)
Lemma toggle_all_none cs :
  no_separator cs ->
  map (toggle_choice None) cs
  = map (fun ch => set_enabled (negb (enabled ch)) ch) cs.
Proof.
  induction 1 as [|ch cs Hch _ IH]; [reflexivity|].
  cbn. unfold toggle_choice at 1. rewrite Hch, IH. reflexivity.
Qed.

(** [_toggle_all(False)] is [_toggle_all()]: the value is tested for
    truth, so [False] is not told apart from no value. *)
Lemma toggle_all_false_is_none p :
  _toggle_all (Some false) p = _toggle_all None p.
Proof. reflexivity. Qed.

Lemma toggle_choice_no_separator given cs :
  no_separator cs -> no_separator (map (toggle_choice given) cs).
Proof.
  unfold no_separator. intros Hns. apply Forall_map.
  eapply Forall_impl; [exact Hns|]. cbn. intros ch Hch.
  unfold toggle_choice. now rewrite Hch.
Qed.

(** C6.  [_toggle_all(True)] followed by [_toggle_all(False)] leaves
    every choice with [enabled = False], and changes nothing else of the
    choices. *)
Theorem toggle_all_true_then_false p :
  no_separator (choices (content_control p)) ->
  exists p',
    (_toggle_all (Some true);; _toggle_all (Some false)) p = Ret tt p' /\
    Forall (fun ch => enabled ch = false) (choices (content_control p')) /\
    choices (content_control p')
    = map (set_enabled false) (choices (content_control p)).
Proof.
  intros Hns. eexists. split; [reflexivity|].
  cbn. unfold content_control in *.
  assert (map (toggle_choice (Some false))
            (map (toggle_choice (Some true)) (choices (_content_control p)))
          = map (set_enabled false) (choices (_content_control p))) as ->.
  { rewrite (toggle_all_true _ Hns), map_map.
    apply map_ext_in. intros ch Hin.
    unfold no_separator in Hns. rewrite Forall_forall in Hns.
    apply list_elem_of_In, Hns in Hin.
    unfold toggle_choice. cbn. now rewrite Hin. }
  split; [|reflexivity].
  apply Forall_map, Forall_forall. reflexivity.
Qed.

(** *** The state invariant *)

Lemma indexed_alter_enabled cs b r :
  indexed cs -> indexed (alter (set_enabled b) r cs).
Proof.
  intros Hidx i ch. rewrite list_lookup_alter.
  destruct (decide (r = i)) as [->|Hne]; [|apply Hidx].
  destruct (cs !! i) as [ch0|] eqn:Hl; cbn; [|discriminate].
  intros [= <-]. cbn. now apply Hidx.
Qed.

Lemma indexed_toggle given cs :
  indexed cs -> indexed (map (toggle_choice given) cs).
Proof.
  intros Hidx i ch. rewrite list_lookup_fmap.
  destruct (cs !! i) as [ch0|] eqn:Hl; cbn; [|discriminate].
  intros [= <-]. apply Hidx in Hl.
  unfold toggle_choice. now destruct (is_separator (value ch0)).
Qed.

Lemma no_separator_alter_enabled cs b r :
  no_separator cs -> no_separator (alter (set_enabled b) r cs).
Proof.
  intros Hns. apply Forall_alter; [exact Hns|]. now cbn.
Qed.

Lemma mod_cursor_ok c i :
  _filtered_choices c <> [] ->
  cursor_ok (with_selected_choice_index (i mod choice_count c)%Z c).
Proof.
  intros Hne. unfold cursor_ok, choice_count; cbn.
  assert (0 < Z.of_nat (length (_filtered_choices c)))%Z as Hpos.
  { destruct (_filtered_choices c); [congruence | cbn; lia]. }
  pose proof (Z.mod_pos_bound i _ Hpos). lia.
Qed.

Section Invariant.

(** The matcher returns candidates out of the ones it was given. *)
Hypothesis fuzzy_match_py_refs : forall query cs,
  Forall (fun r => r < length cs) (snd (fuzzy_match_py query cs)).

Lemma filter_choices_refs_valid text c :
  refs_valid (filter_choices fuzzy_match_py text c).
Proof.
  unfold refs_valid. destruct text as [|a q].
  - rewrite filter_choices_empty. cbn. apply all_refs_valid.
  - rewrite filter_choices_query. cbn. apply fuzzy_match_py_refs.
Qed.

Lemma text_changed_ok text p :
  prompt_ok p -> prompt_ok (state_of (text_changed fuzzy_match_py text p)).
Proof.
  intros (Hns & Hidx & Hrefs & Hcur).
  unfold text_changed, mbind, M_bind, modify.
  rewrite on_text_changed_run. cbn. unfold prompt_ok, content_control in *.
  cbn.
  destruct (filter_choices_frame text (_content_control p)) as [Hch Hsel].
  rewrite Hch. split; [exact Hns|]. split; [exact Hidx|]. split.
  - pose proof (filter_choices_refs_valid text (_content_control p)) as Hv.
    unfold refs_valid in *. cbn. now rewrite Hch in *.
  - unfold cursor_ok, choice_count in *. cbn.
    apply clamp_cursor_spec; lia.
Qed.

(** Every key handler and every text change keeps the invariant,
    whether it returns or raises. *)
Lemma handle_enter_control p :
  content_control (state_of (_handle_enter validate p)) = content_control p.
Proof.
  run_handler. unfold result_value, result_name, content_control.
  destruct (_multiselect p) eqn:Hmulti; cbn.
  - destruct (validate _); cbn; [|reflexivity].
    rewrite Hmulti; cbn.
    destruct (selected_choices _) as [|ch0 sel] eqn:Hsel; cbn.
    + unfold content_control; cbn.
      destruct (selection (_content_control p)) as [ch|e] eqn:Hcur; cbn.
      * rewrite Hcur. reflexivity.
      * destruct (decide (e = IndexError)); cbn; rewrite ?Hmulti;
          reflexivity.
    + rewrite Hmulti. cbn. rewrite Hmulti. reflexivity.
  - destruct (selection (_content_control p)) as [ch|e] eqn:Hcur; cbn.
    + destruct (validate _); cbn; [|reflexivity].
      rewrite Hmulti; cbn. unfold content_control; cbn.
      rewrite Hcur; cbn. rewrite Hcur. reflexivity.
    + destruct (decide (e = ValidationError)); reflexivity.
Qed.

Lemma prompt_ok_control p p' :
  content_control p' = content_control p -> prompt_ok p -> prompt_ok p'.
Proof. unfold prompt_ok. now intros ->. Qed.

Lemma handle_down_ok p : prompt_ok p -> prompt_ok (state_of (_handle_down p)).
Proof.
  intros Hok. destruct (_filtered_choices (content_control p)) eqn:Hview.
  - now rewrite handle_down_empty.
  - rewrite handle_down_nonempty by congruence. cbn.
    destruct Hok as (Hns & Hidx & Hrefs & _).
    unfold prompt_ok, content_control in *; cbn.
    split; [exact Hns|]. split; [exact Hidx|]. split; [exact Hrefs|].
    apply mod_cursor_ok. congruence.
Qed.

Lemma handle_up_ok p : prompt_ok p -> prompt_ok (state_of (_handle_up p)).
Proof.
  intros Hok. destruct (_filtered_choices (content_control p)) eqn:Hview.
  - now rewrite handle_up_empty.
  - rewrite handle_up_nonempty by congruence. cbn.
    destruct Hok as (Hns & Hidx & Hrefs & _).
    unfold prompt_ok, content_control in *; cbn.
    split; [exact Hns|]. split; [exact Hidx|]. split; [exact Hrefs|].
    apply mod_cursor_ok. congruence.
Qed.

Lemma handle_tab_ok p :
  prompt_ok p ->
  prompt_ok (state_of (_handle_tab p)) /\
  (_filtered_choices (content_control p) = [] ->
   _handle_tab p = Raise IndexError p) /\
  (_filtered_choices (content_control p) <> [] ->
   exists p', _handle_tab p = Ret tt p').
Proof.
  intros Hok. pose proof Hok as (Hns & Hidx & Hrefs & Hcur).
  destruct (_filtered_choices (content_control p)) as [|r0 view] eqn:Hview.
  - assert (_handle_tab p = Raise IndexError p) as Hrun.
    { run_handler. now rewrite (selection_empty _ Hview). }
    rewrite Hrun. split; [exact Hok|]. split; [reflexivity | congruence].
  - destruct (under_cursor_exists (content_control p))
      as (r & ch & Hr & Hch & _); trivial; [congruence|].
    rewrite (handle_tab_run p r ch (proj1 Hcur) Hr Hch Hidx).
    split; [|split; [discriminate | eauto]].
    cbn. unfold prompt_ok, content_control in *; cbn.
    split; [now apply no_separator_alter_enabled|].
    split; [now apply indexed_alter_enabled|].
    split; [|exact Hcur].
    unfold refs_valid in *; cbn. now rewrite length_alter.
Qed.

Lemma toggle_all_ok given p :
  prompt_ok p -> prompt_ok (state_of (_toggle_all given p)).
Proof.
  intros (Hns & Hidx & Hrefs & Hcur). rewrite toggle_all_run. cbn.
  unfold prompt_ok, content_control in *; cbn.
  split; [now apply toggle_choice_no_separator|].
  split; [now apply indexed_toggle|].
  split; [|exact Hcur].
  unfold refs_valid in *; cbn. now rewrite length_map.
Qed.

(** Every key handler keeps the invariant, whether it returns or
    raises. *)
Lemma key_binding_ok k p :
  prompt_ok p -> prompt_ok (state_of (key_binding validate k p)).
Proof.
  intros Hok.
  destruct k; cbn [key_binding];
    auto using handle_down_ok, handle_up_ok;
    try (apply (prompt_ok_control p); [apply handle_enter_control | exact Hok]);
    unfold if_multiselect; destruct (_multiselect p); trivial;
    auto using toggle_all_ok.
  - unfold mbind, M_bind.
    destruct (_handle_tab p) as [[] p1|e p1] eqn:Htab;
      pose proof (handle_tab_ok p Hok) as [Hok1 _]; rewrite Htab in Hok1;
      [now apply handle_down_ok | exact Hok1].
  - unfold mbind, M_bind.
    destruct (_handle_tab p) as [[] p1|e p1] eqn:Htab;
      pose proof (handle_tab_ok p Hok) as [Hok1 _]; rewrite Htab in Hok1;
      [now apply handle_up_ok | exact Hok1].
Qed.

(** The invariant holds after any sequence of keys and text changes. *)
Lemma run_actions_ok acts :
  forall p, prompt_ok p ->
    prompt_ok (state_of (run_actions fuzzy_match_py validate acts p)).
Proof.
  induction acts as [|a acts IH]; intros p Hok; [exact Hok|].
  cbn [run_actions]. unfold mbind, M_bind.
  assert (prompt_ok (state_of (step fuzzy_match_py validate a p))) as Hstep.
  { destruct a; cbn [step]; [now apply key_binding_ok
                            |now apply text_changed_ok]. }
  destruct (step fuzzy_match_py validate a p) as [[] p1|e p1];
    [now apply IH | exact Hstep].
Qed.

(** A constructed control with a cursor on one of its choices
    satisfies the invariant. *)
Lemma init_ok raw selected c multiselect :
  InquirerPyFuzzyControl_init raw selected = Val c ->
  (0 <= selected < Z.max 1 (Z.of_nat (length raw)))%Z ->
  prompt_ok {| _content_control := c;
               _multiselect := multiselect;
               _invalid := false;
               status := {| answered := false; result := SNone |};
               _buffer_text := "";
               app_result := None |}.
Proof.
  intros Hinit Hsel.
  destruct (InquirerPyFuzzyControl_init_spec _ _ _ Hinit)
    as (Hns & _ & Hidx & Hrefs & Hview & _).
  unfold prompt_ok, content_control; cbn.
  split; [exact Hns|]. split; [exact Hidx|]. split; [exact Hrefs|].
  unfold InquirerPyFuzzyControl_init in Hinit.
  destruct (init_choices 0 raw) as [cs|e] eqn:Hcs; [|discriminate].
  injection Hinit as <-.
  destruct (init_choices_spec _ _ _ Hcs) as (Hlen & _).
  unfold cursor_ok, choice_count, all_refs; cbn.
  rewrite length_seq, Hlen. exact Hsel.
Qed.

End Invariant.

End FuzzyProperties.

(** * The sample prompt *)

Lemma fruit_choices_indexed : indexed fruit_choices.
Proof.
  intros [|[|[|i]]] ch Hl; cbn in Hl; try discriminate;
    injection Hl as <-; reflexivity.
Qed.

Lemma fruit_choices_no_separator : no_separator fruit_choices.
Proof. repeat constructor. Qed.

Lemma fruit_prompt_at_ok multiselect i :
  (0 <= i < 3)%Z -> prompt_ok (fruit_prompt_at multiselect i).
Proof.
  intros Hi. split; [exact fruit_choices_no_separator|].
  split; [exact fruit_choices_indexed|]. split.
  - unfold refs_valid; cbn. repeat constructor.
  - unfold cursor_ok, choice_count; cbn. lia.
Qed.

(** Down on the last of three rows wraps to the first. *)
Example move_down_wraps :
  _handle_down (fruit_prompt_at false 2) = Ret tt (fruit_prompt_at false 0).
Proof. reflexivity. Qed.

(** A toggled choice keeps its flag while a query hides it: banana is
    enabled, the query [zzz] empties the view, and with the empty query
    banana is shown again, still enabled. *)
Example enabled_survives_filtering :
  exists p,
    run_actions sample_match accept_all
      [KeyPress Down; KeyPress Tab; TextChange "zzz"; TextChange ""]
      (fruit_prompt true) = Ret tt p /\
    _filtered_choices (content_control p) = [0; 1; 2] /\
    choices (content_control p) !! 1
    = Some (Choice "banana" (Payload "banana") true 1).
Proof. eexists. repeat split. Qed.

(** C1.  With an empty filtered view [_handle_down] and [_handle_up]
    are not guarded: the modulo by [choice_count = 0] raises
    [ZeroDivisionError] (the cursor is left as it was).  The same holds
    for every prompt whose view is empty. *)
Theorem handle_down_up_empty_view_raise :
  _handle_down (fruit_prompt_xyz false)
  = Raise ZeroDivisionError (fruit_prompt_xyz false) /\
  _handle_up (fruit_prompt_xyz false)
  = Raise ZeroDivisionError (fruit_prompt_xyz false) /\
  key_binding accept_all Down (fruit_prompt_xyz true)
  = Raise ZeroDivisionError (fruit_prompt_xyz true) /\
  key_binding accept_all Up (fruit_prompt_xyz true)
  = Raise ZeroDivisionError (fruit_prompt_xyz true).
Proof. repeat split. Qed.

(** C2.  In single-select mode with an empty filtered view, Enter does
    not return [None]: [result_value] is evaluated for the validator
    outside the [try] that catches [IndexError], so [IndexError] leaves
    the handler and nothing is answered. *)
Theorem handle_enter_single_empty_view_raises :
  _handle_enter accept_all (fruit_prompt_xyz false)
  = Raise IndexError (fruit_prompt_xyz false) /\
  app_result (state_of (_handle_enter accept_all (fruit_prompt_xyz false)))
  = None.
Proof. split; reflexivity. Qed.

(** C3.  [_toggle_all(False)] does not disable the choices: on the
    fresh prompt, where every choice is disabled, it enables all of
    them, as [_toggle_all()] does. *)
Theorem toggle_all_false_enables :
  _toggle_all (Some false) (fruit_prompt true)
  = Ret tt (with_control (with_choices (map (set_enabled true)))
              (fruit_prompt true)) /\
  _toggle_all (Some false) (fruit_prompt true)
  = _toggle_all None (fruit_prompt true).
Proof. split; reflexivity. Qed.

(** C4.  After the query [ap] is deleted again, the filtered view is
    the full list in the original order, but [_filtered_indices] still
    holds the positions matched for [ap]: rows 0 and 1 (apple, banana)
    keep highlighted characters under the empty query. *)
Theorem empty_query_keeps_stale_indices :
  exists p,
    run_actions sample_match accept_all
      [TextChange "ap"; TextChange ""] (fruit_prompt false) = Ret tt p /\
    _buffer_text p = "" /\
    _filtered_choices (content_control p) = [0; 1; 2] /\
    _filtered_indices (content_control p) = [[0; 1]; [2; 3]] /\
    row_indices (content_control p) 0 = [0; 1] /\
    row_indices (content_control p) 1 = [2; 3].
Proof. eexists. repeat split. Qed.

(** C7.  In multiselect mode with no choice enabled and the cursor on
    banana, Enter does not answer with the list holding banana when the
    validator wants something selected: the document it validates is
    [result_value], the empty list, and not the one-element list it
    would exit with.  The validator accepts that one-element list, yet
    Enter only sets [_invalid] and nothing is answered. *)
Theorem enter_fallback_is_not_validated :
  under_cursor (content_control (fruit_prompt_at true 1))
  = Some (Choice "banana" (Payload "banana") false 1) /\
  selected_choices (fruit_prompt_at true 1) = [] /\
  accept_nonempty (AList [Payload "banana"]) = true /\
  result_value (fruit_prompt_at true 1) = Val (AList []) /\
  _handle_enter accept_nonempty (fruit_prompt_at true 1)
  = Ret tt (with_invalid true (fruit_prompt_at true 1)) /\
  app_result
    (state_of (_handle_enter accept_nonempty (fruit_prompt_at true 1)))
  = None.
Proof. repeat split. Qed.

Lemma on_text_changed_cursor_witness :
  (-1 <= 2)%Z /\
  exists p',
    _on_text_changed sample_match
      (with_buffer_text "ap" (fruit_prompt_at false 2)) = Ret tt p' /\
    selected_choice_index (content_control p') = 1%Z /\
    choice_count (content_control p') = 2%Z.
Proof.
  split; [lia|].
  destruct (on_text_changed_cursor sample_match
              (with_buffer_text "ap" (fruit_prompt_at false 2)))
    as (p' & Hrun & Hview & _ & Hclamp & _); [cbn; lia|].
  exists p'. split; [exact Hrun|].
  assert (choice_count (content_control p') = 2%Z) as HN.
  { unfold choice_count. rewrite Hview. reflexivity. }
  split; [|exact HN]. rewrite HN in Hclamp. apply Hclamp; cbn; lia.
Defined.

Lemma toggle_all_true_then_false_witness :
  no_separator (choices (content_control fruit_prompt_marked)) /\
  exists p',
    (_toggle_all (Some true);; _toggle_all (Some false)) fruit_prompt_marked
    = Ret tt p' /\
    Forall (fun ch => enabled ch = false) (choices (content_control p')).
Proof.
  assert (no_separator (choices (content_control fruit_prompt_marked)))
    as Hns by (repeat constructor).
  split; [exact Hns|].
  destruct (toggle_all_true_then_false fruit_prompt_marked Hns)
    as (p' & Hrun & Hall & _).
  exists p'. split; assumption.
Defined.

Lemma handle_enter_multiselect_none_enabled_witness :
  exists ch,
    under_cursor (content_control (fruit_prompt_at true 1)) = Some ch /\
    _handle_enter accept_all (fruit_prompt_at true 1)
    = Ret tt (with_app_result (AList [value ch])
        (with_status
           (fun _ => {| answered := true; result := SNames [name ch] |})
           (fruit_prompt_at true 1))).
Proof.
  destruct (fruit_prompt_at_ok true 1) as (_ & _ & Hrefs & Hcur); [lia|].
  apply (handle_enter_multiselect_none_enabled accept_all
           (fruit_prompt_at true 1)).
  - reflexivity.
  - exact Hrefs.
  - exact Hcur.
  - discriminate.
  - repeat constructor.
  - reflexivity.
Defined.

Lemma handle_enter_multiselect_enabled_witness :
  _handle_enter accept_all fruit_prompt_marked
  = Ret tt (with_app_result (AList [Payload "banana"; Payload "grape"])
      (with_status
         (fun _ => {| answered := true;
                      result := SNames ["banana"; "grape"] |})
         fruit_prompt_marked)).
Proof.
  apply (handle_enter_multiselect_enabled accept_all fruit_prompt_marked).
  - reflexivity.
  - intros [|[|[|i]]] ch Hl; cbn in Hl; try discriminate;
      injection Hl as <-; reflexivity.
  - apply Exists_cons_tl, Exists_cons_hd. reflexivity.
  - reflexivity.
Defined.

Lemma handle_enter_validation_failure_witness :
  exists p',
    _handle_enter reject_all (fruit_prompt false) = Ret tt p' /\
    _invalid p' = true /\
    content_control p' = content_control (fruit_prompt false) /\
    _multiselect p' = _multiselect (fruit_prompt false) /\
    status p' = status (fruit_prompt false) /\
    _buffer_text p' = _buffer_text (fruit_prompt false) /\
    app_result p' = app_result (fruit_prompt false).
Proof.
  apply (handle_enter_validation_failure reject_all (fruit_prompt false)
           (AValue (Payload "apple"))); reflexivity.
Defined.

Lemma tab_toggles_then_moves_witness :
  key_binding accept_all Tab (fruit_prompt_at true 2)
  = Ret tt (with_control
      (fun c => with_selected_choice_index 0%Z
         (with_choices (alter (set_enabled true) 2) c))
      (fruit_prompt_at true 2)) /\
  key_binding accept_all BackTab (fruit_prompt_at true 2)
  = Ret tt (with_control
      (fun c => with_selected_choice_index 1%Z
         (with_choices (alter (set_enabled true) 2) c))
      (fruit_prompt_at true 2)).
Proof.
  destruct (fruit_prompt_at_ok true 2) as (_ & Hidx & Hrefs & Hcur); [lia|].
  destruct (tab_toggles_then_moves accept_all (fruit_prompt_at true 2))
    as (r & ch & Hr & Hch & Htab & Hback).
  - reflexivity.
  - exact Hrefs.
  - exact Hidx.
  - exact Hcur.
  - discriminate.
  - cbn in Hr. injection Hr as <-. cbn in Hch. injection Hch as <-.
    split; [exact Htab | exact Hback].
Defined.

(** * Further properties of the handlers *)

Section HandlerProperties.

Context {V : Type}.
Context (fuzzy_match_py :
  string -> list (@choice V) -> list (list nat) * list nat).
Context (validate : @answer V -> bool).

Implicit Types (p : @FuzzyPrompt V) (c : @InquirerPyFuzzyControl V).
Implicit Types (cs : list (@choice V)) (ch : @choice V).

(** *** Construction *)

Lemma init_choices_exn (raw : list (string * @pyvalue V)) :
  forall k e, init_choices k raw = Exn e ->
    e = InvalidArgument /\
    Exists (fun nv => is_separator (snd nv) = true) raw.
Proof.
  induction raw as [|[n v] raw IH]; intros k e Hinit; cbn in Hinit;
    [discriminate|].
  destruct (is_separator v) eqn:Hsep.
  - injection Hinit as <-. split; [reflexivity|]. now constructor.
  - destruct (init_choices (S k) raw) as [cs|e'] eqn:Hrest; [discriminate|].
    injection Hinit as <-. destruct (IH _ _ Hrest) as [-> Hex].
    split; [reflexivity|]. now apply Exists_cons_tl.
Qed.

Lemma init_choices_names_values (raw : list (string * @pyvalue V)) :
  forall k cs, init_choices k raw = Val cs ->
    map (fun ch => (name ch, value ch)) cs = raw.
Proof.
  induction raw as [|[n v] raw IH]; intros k cs Hinit; cbn in Hinit.
  - now injection Hinit as <-.
  - destruct (is_separator v); [discriminate|].
    destruct (init_choices (S k) raw) as [cs'|e] eqn:Hrest; [|discriminate].
    injection Hinit as <-. cbn. now rewrite (IH _ _ Hrest).
Qed.

(** X1.  The loop of [__init__] over [enumerate(self.choices)], run on
    the choices the base class prepared, raises exactly when one of
    them holds a [Separator], and what it raises is [InvalidArgument];
    otherwise it goes through all of them, whatever their number. *)
Theorem init_loop_raises_exactly_on_separator
    (raw : list (string * @pyvalue V)) (k : nat) :
  (forall e, init_choices k raw = Exn e -> e = InvalidArgument) /\
  (init_choices k raw = Exn InvalidArgument <->
   Exists (fun nv => is_separator (snd nv) = true) raw) /\
  ((exists cs, init_choices k raw = Val cs /\ length cs = length raw) <->
   Forall (fun nv => is_separator (snd nv) = false) raw).
Proof.
  split; [|split; [split|split]].
  - intros e Hinit. now apply init_choices_exn in Hinit.
  - intros Hinit. now apply init_choices_exn in Hinit.
  - apply init_choices_separator.
  - intros (cs & Hinit & _). apply Forall_forall. intros nv Hin.
    destruct (is_separator (snd nv)) eqn:Hsep; [|reflexivity].
    rewrite init_choices_separator in Hinit; [discriminate|].
    apply Exists_exists. eauto.
  - intros Hall. destruct (init_choices k raw) as [cs|e] eqn:Hinit.
    + exists cs. split; [reflexivity|].
      now apply init_choices_spec in Hinit.
    + apply init_choices_exn in Hinit as [_ Hex].
      apply Exists_exists in Hex as (nv & Hin & Hsep).
      rewrite Forall_forall in Hall. apply Hall in Hin. congruence.
Qed.

(** X2.  A control that [__init__] builds keeps the names and values it
    was given, in order, with every choice disabled and carrying its
    position as index; it shows every choice, highlights nothing and
    has the cursor the base class chose. *)
Theorem init_builds_fresh_control
    (raw : list (string * @pyvalue V)) (selected : Z) c :
  InquirerPyFuzzyControl_init raw selected = Val c ->
  map (fun ch => (name ch, value ch)) (choices c) = raw /\
  Forall (fun ch => enabled ch = false) (choices c) /\
  (forall i ch, choices c !! i = Some ch -> index ch = i) /\
  _filtered_choices c = seq 0 (length raw) /\
  _filtered_indices c = [] /\
  selected_choice_index c = selected.
Proof.
  intros Hinit.
  destruct (InquirerPyFuzzyControl_init_spec _ _ _ Hinit)
    as (_ & Hdis & Hidx & _ & Hview & Hixs).
  unfold InquirerPyFuzzyControl_init in Hinit.
  destruct (init_choices 0 raw) as [cs|e] eqn:Hcs; [|discriminate].
  injection Hinit as <-. cbn in *.
  pose proof (init_choices_names_values _ _ _ Hcs) as Hraw.
  split; [exact Hraw|]. split; [exact Hdis|]. split; [exact Hidx|].
  split; [|split; reflexivity].
  unfold all_refs. now rewrite <- Hraw, length_map.
Qed.

(** *** Moving the cursor *)

Lemma with_control_twice f g p :
  with_control f (with_control g p) = with_control (fun c => f (g c)) p.
Proof. reflexivity. Qed.

Lemma view_length_pos c :
  _filtered_choices c <> [] -> (0 < choice_count c)%Z.
Proof.
  unfold choice_count. destruct (_filtered_choices c); [congruence|cbn; lia].
Qed.

(** X22.  On a non-empty view with the cursor on a row, Down moves the
    cursor to the next row and from the last row to the first; Up moves
    it to the previous row and from the first row to the last. *)
Theorem down_up_step_and_wrap p :
  _filtered_choices (content_control p) <> [] ->
  (0 <= selected_choice_index (content_control p)
     < choice_count (content_control p))%Z ->
  let i := selected_choice_index (content_control p) in
  let N := choice_count (content_control p) in
  _handle_down p
  = Ret tt (with_control (with_selected_choice_index
      (if (i =? N - 1)%Z then 0 else i + 1)%Z) p) /\
  _handle_up p
  = Ret tt (with_control (with_selected_choice_index
      (if (i =? 0)%Z then N - 1 else i - 1)%Z) p).
Proof.
  intros Hne Hi. cbn zeta.
  rewrite (handle_down_nonempty p Hne), (handle_up_nonempty p Hne).
  split; do 3 f_equal.
  - destruct (_ =? _)%Z eqn:Heq.
    + replace (selected_choice_index (content_control p) + 1)%Z
        with (choice_count (content_control p)) by lia.
      apply Z.mod_same. lia.
    + apply Z.mod_small. lia.
  - destruct (_ =? _)%Z eqn:Heq.
    + replace (selected_choice_index (content_control p) - 1)%Z
        with (-1)%Z by lia.
      rewrite <- (Z.mod_add _ 1) by lia.
      rewrite Z.mod_small by lia. lia.
    + apply Z.mod_small. lia.
Qed.

(** X4.  On a non-empty view with the cursor on a row, Down followed by
    Up, and Up followed by Down, leave the prompt as it was. *)
Theorem down_then_up_returns p :
  _filtered_choices (content_control p) <> [] ->
  (0 <= selected_choice_index (content_control p)
     < choice_count (content_control p))%Z ->
  (_handle_down;; _handle_up) p = Ret tt p /\
  (_handle_up;; _handle_down) p = Ret tt p.
Proof.
  intros Hne Hi. unfold mbind, M_bind.
  rewrite (handle_down_nonempty p Hne), (handle_up_nonempty p Hne).
  rewrite handle_up_nonempty, handle_down_nonempty by exact Hne.
  rewrite !with_control_twice. cbn.
  unfold content_control, choice_count in *. cbn.
  set (i := selected_choice_index (_content_control p)) in *.
  set (N := Z.of_nat (length (_filtered_choices (_content_control p)))) in *.
  assert (((i + 1) mod N - 1) mod N = i)%Z as ->.
  { rewrite Zminus_mod_idemp_l. replace (i + 1 - 1)%Z with i by lia.
    apply Z.mod_small. lia. }
  assert (((i - 1) mod N + 1) mod N = i)%Z as ->.
  { rewrite Zplus_mod_idemp_l. replace (i - 1 + 1)%Z with i by lia.
    apply Z.mod_small. lia. }
  subst i. split; f_equal; now destruct p as [[] ? ? ? ? ?].
Qed.

(** *** Toggling *)

Lemma toggle_choice_invert_twice ch :
  toggle_choice None (toggle_choice None ch) = ch.
Proof.
  unfold toggle_choice. destruct (is_separator (value ch)) eqn:Hsep.
  - now rewrite Hsep.
  - cbn. rewrite Hsep. destruct ch as [n v [] i]; reflexivity.
Qed.

(** X6.  [_toggle_all()] called twice leaves the prompt as it was,
    separators or not. *)
Theorem toggle_all_invert_twice p :
  (_toggle_all None;; _toggle_all None) p = Ret tt p.
Proof.
  unfold mbind, M_bind. rewrite !toggle_all_run, with_control_twice.
  f_equal. destruct p as [[cs i view ixs] ? ? ? ? ?]. cbn.
  unfold with_control, with_choices; cbn. do 2 f_equal.
  rewrite map_map. rewrite <- (map_id cs) at 2.
  apply map_ext. intros ch. apply toggle_choice_invert_twice.
Qed.

(** X5.  On a non-empty view Tab's toggle applied twice restores the
    flag: [_handle_tab] followed by [_handle_tab] leaves the prompt as
    it was. *)
Theorem handle_tab_twice_restores p :
  refs_valid (content_control p) ->
  indexed (choices (content_control p)) ->
  cursor_ok (content_control p) ->
  _filtered_choices (content_control p) <> [] ->
  (_handle_tab;; _handle_tab) p = Ret tt p.
Proof.
  intros Hrefs Hidx Hcur Hne.
  destruct (under_cursor_exists _ Hrefs Hcur Hne) as (r & ch & Hr & Hch & _).
  unfold mbind, M_bind.
  rewrite (handle_tab_run p r ch (proj1 Hcur) Hr Hch Hidx).
  set (flip := set_enabled (negb (enabled ch))).
  rewrite (handle_tab_run _ r (flip ch)); cbn.
  - f_equal. rewrite with_control_twice.
    destruct p as [[cs i view ixs] ? ? ? ? ?]. cbn in *.
    unfold with_control, with_choices; cbn. do 2 f_equal.
    apply list_eq. intros j. rewrite !list_lookup_alter.
    destruct (decide (r = j)) as [<-|Hne']; [|reflexivity].
    rewrite Hch. cbn. case_decide; [|congruence]. cbn. f_equal.
    unfold flip. cbn. rewrite negb_involutive. now destruct ch.
  - apply Hcur.
  - exact Hr.
  - unfold content_control in *. cbn.
    now rewrite list_lookup_alter_eq, Hch.
  - unfold content_control in *. cbn. now apply indexed_alter_enabled.
Qed.

(** X13.  With an empty view the toggle of Tab is not guarded: in
    multiselect mode Tab and BackTab raise [IndexError] and leave the
    prompt as it was. *)
Theorem tab_empty_view_raises p :
  _multiselect p = true ->
  _filtered_choices (content_control p) = [] ->
  key_binding validate Tab p = Raise IndexError p /\
  key_binding validate BackTab p = Raise IndexError p.
Proof.
  intros Hmulti Hempty.
  assert (_handle_tab p = Raise IndexError p) as Htab.
  { run_handler. now rewrite (selection_empty _ Hempty). }
  unfold key_binding, if_multiselect, mbind, M_bind.
  now rewrite Hmulti, Htab.
Qed.

Lemma selected_choices_all cs :
  List.filter (fun ch => enabled ch) (map (set_enabled true) cs)
  = map (set_enabled true) cs.
Proof. induction cs as [|ch cs IH]; cbn; [reflexivity | now rewrite IH]. Qed.

Lemma selection_no_choices c :
  choices c = [] -> selection c = Exn IndexError.
Proof.
  intros Hcs. unfold selection, deref.
  destruct (py_getitem _ _) as [r|e] eqn:Hget.
  - now rewrite Hcs, lookup_nil.
  - unfold py_getitem in Hget. cbn zeta in Hget.
    destruct (_ && _)%Z; [|congruence].
    destruct (_ !! _); congruence.
Qed.

(** *** Enter *)

Lemma selection_exn c e : selection c = Exn e -> e = IndexError.
Proof.
  unfold selection, deref, py_getitem. cbn zeta.
  destruct (_ && _)%Z; [|congruence].
  destruct (_filtered_choices c !! _) as [r|]; [|congruence].
  destruct (choices c !! r); congruence.
Qed.

(** What Enter does in multiselect mode. *)
Lemma handle_enter_multiselect_run p :
  _multiselect p = true ->
  _handle_enter validate p
  = if validate (AList (map value (selected_choices p)))
    then match selected_choices p with
         | [] =>
             match selection (content_control p) with
             | Val ch =>
                 Ret tt (answered_with (AList [value ch]) (SNames [name ch]) p)
             | Exn _ => Ret tt (answered_with (AList []) (SNames []) p)
             end
         | _ :: _ =>
             Ret tt (answered_with (AList (map value (selected_choices p)))
                       (SNames (map name (selected_choices p))) p)
         end
    else Ret tt (with_invalid true p).
Proof.
  intros Hmulti. run_handler. unfold result_value, result_name.
  rewrite Hmulti. cbn. destruct (validate _); cbn; [|reflexivity].
  unfold selected_choices, content_control in *; cbn. rewrite Hmulti. cbn.
  destruct (List.filter _ _) as [|ch0 sel] eqn:Hsel; cbn.
  - destruct (selection (_content_control p)) as [ch|e] eqn:Hcur; cbn.
    + rewrite Hcur. reflexivity.
    + apply selection_exn in Hcur as ->. cbn. rewrite Hmulti. reflexivity.
  - repeat (cbn; rewrite ?Hmulti, ?Hsel). reflexivity.
Qed.

(** X10.  In multiselect mode Enter never raises: either the validator
    rejects and only [_invalid] is set, or the prompt is answered and
    exits with a list. *)
Theorem enter_multiselect_never_raises p :
  _multiselect p = true ->
  exists p',
    _handle_enter validate p = Ret tt p' /\
    ((p' = with_invalid true p) \/
     (exists values names,
        p' = answered_with (AList values) (SNames names) p /\
        length values = length names)).
Proof.
  intros Hmulti. rewrite (handle_enter_multiselect_run p Hmulti).
  destruct (validate _); [|eauto].
  destruct (selected_choices p) as [|ch0 sel] eqn:Hsel.
  - destruct (selection (content_control p)) as [ch|e];
      eexists; (split; [reflexivity|]); right;
      eexists _, _; (split; [reflexivity|]); reflexivity.
  - eexists. split; [reflexivity|]. right. eexists _, _.
    split; [reflexivity|]. now rewrite !length_map.
Qed.

(** X11.  In multiselect mode, with an empty view and no choice
    enabled, Enter (the validator accepting the empty list) answers
    with the empty list. *)
Theorem enter_multiselect_empty_view p :
  _multiselect p = true ->
  _filtered_choices (content_control p) = [] ->
  Forall (fun ch => enabled ch = false) (choices (content_control p)) ->
  validate (AList []) = true ->
  _handle_enter validate p
  = Ret tt (answered_with (AList []) (SNames []) p).
Proof.
  intros Hmulti Hempty Hnone Hok.
  rewrite (handle_enter_multiselect_run p Hmulti).
  rewrite (selected_choices_none p Hnone). cbn. rewrite Hok.
  now rewrite (selection_empty _ Hempty).
Qed.

(** With no choice enabled, a validator that rejects the empty list
    makes Enter set [_invalid] and return, whatever the view and the
    cursor, and whatever the validator makes of the list Enter would
    exit with. *)
Lemma enter_multiselect_validates_empty_list p :
  _multiselect p = true ->
  Forall (fun ch => enabled ch = false) (choices (content_control p)) ->
  validate (AList []) = false ->
  _handle_enter validate p = Ret tt (with_invalid true p).
Proof.
  intros Hmulti Hnone Hrej.
  rewrite (handle_enter_multiselect_run p Hmulti).
  rewrite (selected_choices_none p Hnone). cbn [map]. now rewrite Hrej.
Qed.

(** X7.  In multiselect mode, [_toggle_all(True)] followed by Enter
    (the validator accepting) answers with the values of all choices in
    their original order, whatever the view shows. *)
Theorem toggle_all_true_then_enter p :
  _multiselect p = true ->
  no_separator (choices (content_control p)) ->
  validate (AList (map value (choices (content_control p)))) = true ->
  exists p',
    (_toggle_all (Some true);; _handle_enter validate) p = Ret tt p' /\
    app_result p' = Some (AList (map value (choices (content_control p)))) /\
    status p'
    = {| answered := true;
         result := SNames (map name (choices (content_control p))) |}.
Proof.
  intros Hmulti Hns Hok. unfold mbind, M_bind. rewrite toggle_all_run.
  set (p1 := with_control _ p).
  assert (selected_choices p1
          = map (set_enabled true) (choices (content_control p))) as Hsel.
  { unfold selected_choices, p1, content_control in *. cbn.
    rewrite (toggle_all_true _ Hns). apply selected_choices_all. }
  assert (map value (selected_choices p1)
          = map value (choices (content_control p))) as Hvalues.
  { rewrite Hsel, map_map. reflexivity. }
  assert (map name (selected_choices p1)
          = map name (choices (content_control p))) as Hnames.
  { rewrite Hsel, map_map. reflexivity. }
  rewrite (handle_enter_multiselect_run p1 Hmulti), Hvalues, Hok.
  destruct (selected_choices p1) as [|ch0 sel] eqn:Hp1.
  - assert (choices (content_control p1) = []) as Hnil.
    { unfold p1, content_control in *. cbn.
      rewrite (toggle_all_true _ Hns).
      destruct (choices (_content_control p)); [reflexivity|discriminate]. }
    rewrite (selection_no_choices _ Hnil), <- Hvalues, <- Hnames.
    eexists. split; [reflexivity|]. split; reflexivity.
  - rewrite <- Hnames. eexists. split; [reflexivity|]. split; reflexivity.
Qed.

(** X12.  In single-select mode, with a choice under the cursor, Enter
    (the validator accepting its value) answers with the value of that
    choice and shows its name. *)
Theorem enter_single_select_answers p ch :
  _multiselect p = false ->
  (0 <= selected_choice_index (content_control p))%Z ->
  under_cursor (content_control p) = Some ch ->
  validate (AValue (value ch)) = true ->
  _handle_enter validate p
  = Ret tt (answered_with (AValue (value ch)) (SName (name ch)) p).
Proof.
  intros Hsingle Hi Hu Hok.
  apply (handle_enter_single_selection validate p ch Hsingle); [|exact Hok].
  now apply under_cursor_selection.
Qed.

(** What Enter does in single-select mode. *)
Lemma handle_enter_single_run p :
  _multiselect p = false ->
  _handle_enter validate p
  = match selection (content_control p) with
    | Val ch =>
        if validate (AValue (value ch))
        then Ret tt (answered_with (AValue (value ch)) (SName (name ch)) p)
        else Ret tt (with_invalid true p)
    | Exn e => Raise e p
    end.
Proof.
  intros Hsingle.
  destruct (selection (content_control p)) as [ch|e] eqn:Hsel.
  - destruct (validate (AValue (value ch))) eqn:Hok.
    + now apply handle_enter_single_selection.
    + run_handler. unfold result_value. now rewrite Hsingle, Hsel, Hok.
  - run_handler. unfold result_value. rewrite Hsingle, Hsel.
    apply selection_exn in Hsel as ->. reflexivity.
Qed.

(** X9.  Enter never touches the control, the mode or the buffer: the
    choices and their flags, the cursor and the view are what they were,
    whether Enter answers, marks the input invalid or raises. *)
Theorem enter_keeps_control p :
  content_control (state_of (_handle_enter validate p)) = content_control p /\
  _multiselect (state_of (_handle_enter validate p)) = _multiselect p /\
  _buffer_text (state_of (_handle_enter validate p)) = _buffer_text p.
Proof.
  destruct (_multiselect p) eqn:Hmulti.
  - rewrite (handle_enter_multiselect_run p Hmulti).
    destruct (validate _); [|now rewrite <- Hmulti].
    destruct (selected_choices p); [|now rewrite <- Hmulti].
    destruct (selection (content_control p)); now rewrite <- Hmulti.
  - rewrite (handle_enter_single_run p Hmulti).
    destruct (selection (content_control p)); [|now rewrite <- Hmulti].
    destruct (validate _); now rewrite <- Hmulti.
Qed.

(** *** Counting the enabled choices *)



(** *** Text changes *)

(** X14.  A text change never raises and never touches the choices:
    names, values, flags and indices are what they were, as are the
    status, the mode and the application result; [_invalid] is cleared
    and the view is the one [filter_choices] computes for the new
    text. *)
Theorem text_changed_keeps_choices text p :
  exists p',
    text_changed fuzzy_match_py text p = Ret tt p' /\
    choices (content_control p') = choices (content_control p) /\
    _filtered_choices (content_control p')
    = _filtered_choices
        (filter_choices fuzzy_match_py text (content_control p)) /\
    _filtered_indices (content_control p')
    = _filtered_indices
        (filter_choices fuzzy_match_py text (content_control p)) /\
    _invalid p' = false /\
    _buffer_text p' = text /\
    status p' = status p /\
    _multiselect p' = _multiselect p /\
    app_result p' = app_result p.
Proof.
  unfold text_changed, mbind, M_bind, modify.
  rewrite on_text_changed_run. eexists. split; [reflexivity|].
  cbn. unfold content_control. cbn.
  destruct (filter_choices_frame fuzzy_match_py text (_content_control p))
    as [Hch _].
  rewrite Hch. repeat split.
Qed.

(** X21.  In single-select mode no key changes a choice: the flags stay
    as they are whatever is pressed. *)
Theorem single_select_keys_keep_choices p k :
  _multiselect p = false ->
  choices (content_control (state_of (key_binding validate k p)))
  = choices (content_control p).
Proof.
  intros Hsingle.
  destruct k; cbn [key_binding]; unfold if_multiselect;
    rewrite ?Hsingle; try reflexivity.
  - now rewrite (handle_enter_control validate p).
  - run_handler. now destruct (py_mod _ _).
  - run_handler. now destruct (py_mod _ _).
  - run_handler. now destruct (py_mod _ _).
  - run_handler. now destruct (py_mod _ _).
Qed.

(** *** From construction on *)

(** X3.  From a constructed prompt whose cursor is on a choice, and
    with a matcher that returns candidates out of the ones it is given,
    any sequence of keys and text changes (up to the first exception,
    if one is raised) leaves the cursor within [0 <= cursor < max(1, N)]
    and, when the view is not empty, on a choice. *)
Theorem cursor_on_a_row_after_any_run
    (raw : list (string * @pyvalue V)) (selected : Z) c
    (multiselect : bool) (acts : list action) :
  (forall query cs,
     Forall (fun r => r < length cs) (snd (fuzzy_match_py query cs))) ->
  InquirerPyFuzzyControl_init raw selected = Val c ->
  (0 <= selected < Z.max 1 (Z.of_nat (length raw)))%Z ->
  let p' :=
    state_of (run_actions fuzzy_match_py validate acts
      {| _content_control := c;
         _multiselect := multiselect;
         _invalid := false;
         status := {| answered := false; result := SNone |};
         _buffer_text := "";
         app_result := None |}) in
  (0 <= selected_choice_index (content_control p')
     < Z.max 1 (choice_count (content_control p')))%Z /\
  (_filtered_choices (content_control p') <> [] ->
   exists ch, under_cursor (content_control p') = Some ch).
Proof.
  intros Hmatch Hinit Hsel p'.
  assert (prompt_ok p') as (_ & _ & Hrefs & Hcur).
  { apply run_actions_ok; [exact Hmatch|].
    now apply (init_ok raw selected). }
  split; [exact Hcur|]. intros Hne.
  destruct (under_cursor_exists _ Hrefs Hcur Hne) as (r & ch & _ & _ & Hu).
  eauto.
Qed.

End HandlerProperties.

(** * Rendering *)

Lemma append_cons (x : Ascii.ascii) (a b : string) :
  String x a +:+ b = String x (a +:+ b).
Proof. reflexivity. Qed.

Lemma append_assoc (a b c : string) : (a +:+ b) +:+ c = a +:+ (b +:+ c).
Proof.
  induction a as [|x a IH]; [reflexivity|].
  rewrite !append_cons. now f_equal.
Qed.

Lemma append_empty_r (a : string) : a +:+ "" = a.
Proof.
  induction a as [|x a IH]; [reflexivity|].
  rewrite append_cons. now f_equal.
Qed.

Lemma length_append (a b : string) :
  String.length (a +:+ b) = String.length a + String.length b.
Proof.
  induction a as [|x a IH]; [reflexivity|].
  rewrite append_cons. cbn [String.length]. now rewrite IH.
Qed.

Lemma length_spaces (n : nat) : String.length (spaces n) = n.
Proof.
  induction n as [|n IH]; [reflexivity|].
  change (S (String.length (spaces n)) = S n). now f_equal.
Qed.

Lemma fragments_text_app (fs gs : list fragment) :
  fragments_text (fs ++ gs) = fragments_text fs +:+ fragments_text gs.
Proof.
  unfold fragments_text, join_empty.
  induction fs as [|f fs IH]; [reflexivity|].
  cbn [app map foldr]. now rewrite IH, append_assoc.
Qed.

(** The characters [highlight] styles are those of the string, in
    order. *)
Lemma highlight_text unmatched indices (s : string) :
  forall index, fragments_text (highlight unmatched indices index s) = s.
Proof.
  unfold fragments_text, join_empty.
  induction s as [|x s IH]; intros index; [reflexivity|].
  cbn [highlight map foldr]. rewrite IH. now destruct (bool_decide _).
Qed.

Lemma highlight_no_marker unmatched indices (s : string) :
  is_cursor_marker (unmatched, "") = false ->
  forall index,
    List.filter is_cursor_marker (highlight unmatched indices index s) = [].
Proof.
  intros Hstyle. induction s as [|x s IH]; intros index; cbn; [reflexivity|].
  rewrite IH. destruct (bool_decide _); [reflexivity|].
  unfold is_cursor_marker in *. cbn in *. now rewrite Hstyle.
Qed.

Section RenderingProperties.

Context {V : Type}.
Context (_pointer _marker : string).

Implicit Types (c : @InquirerPyFuzzyControl V) (ch : @choice V).

Lemma name_fragments_text style ch indices :
  fragments_text
    (if negb (indices_truthy indices)
     then [(style, name ch)]
     else highlight style (default [] indices) 0 (name ch))
  = name ch.
Proof.
  destruct (negb _); [|apply highlight_text].
  unfold fragments_text, join_empty. cbn [map foldr snd].
  apply append_empty_r.
Qed.

Lemma hover_text_plain ch indices :
  fragments_text (_get_hover_text _pointer _marker ch indices)
  = _pointer +:+ (if enabled ch then _marker else " ") +:+ name ch.
Proof.
  unfold _get_hover_text.
  rewrite fragments_text_app, name_fragments_text.
  unfold fragments_text, join_empty. cbn [map foldr snd].
  change ("" +:+ "") with "".
  now rewrite append_empty_r, !append_assoc.
Qed.

Lemma normal_text_plain ch indices :
  fragments_text (_get_normal_text _pointer _marker ch indices)
  = spaces (String.length _pointer)
    +:+ (if enabled ch then _marker else " ") +:+ name ch.
Proof.
  unfold _get_normal_text.
  rewrite fragments_text_app, name_fragments_text.
  unfold fragments_text, join_empty. cbn [map foldr snd].
  now rewrite append_empty_r, !append_assoc.
Qed.

(** X16.  Highlighting changes styles only: whatever the matched
    positions, the text of a row is the pointer (or as many spaces on a
    row that is not hovered), the marker or a space, and the name. *)
Theorem row_text_ignores_highlight ch indices :
  fragments_text (_get_hover_text _pointer _marker ch indices)
  = _pointer +:+ (if enabled ch then _marker else " ") +:+ name ch /\
  fragments_text (_get_normal_text _pointer _marker ch indices)
  = spaces (String.length _pointer)
    +:+ (if enabled ch then _marker else " ") +:+ name ch.
Proof. split; [apply hover_text_plain | apply normal_text_plain]. Qed.

(** X17.  The name of the hovered row and the name of another row
    start in the same column exactly when the two choices have the same
    flag or the marker is one character long: the pointer column has
    the same width on both rows, the marker column has the width of the
    marker on an enabled choice and width one on a disabled choice. *)
Theorem names_align_iff_marker_width ch ch' indices indices' :
  String.length
    (fragments_text (_get_hover_text _pointer _marker ch indices))
  - String.length (name ch)
  = String.length
      (fragments_text (_get_normal_text _pointer _marker ch' indices'))
    - String.length (name ch')
  <-> enabled ch = enabled ch' \/ String.length _marker = 1.
Proof.
  rewrite hover_text_plain, normal_text_plain.
  rewrite !length_append, length_spaces.
  destruct (enabled ch), (enabled ch'); cbn [String.length];
    split; intros H; try (left; reflexivity); try lia;
    try (right; lia);
    destruct H as [H|H]; try discriminate; lia.
Qed.

Lemma deref_all_valid c (refs : list nat) :
  Forall (fun r => r < length (choices c)) refs ->
  exists view, deref_all c refs = Val view /\ length view = length refs.
Proof.
  induction 1 as [|r refs Hr _ (view & Hview & Hlen)]; [now exists []|].
  destruct (lookup_lt_is_Some_2 _ _ Hr) as [ch Hch].
  exists (ch :: view). cbn. unfold deref. rewrite Hch, Hview.
  split; [reflexivity | cbn; now rewrite Hlen].
Qed.

Lemma row_fragments_text c index ch :
  fragments_text
    (if (Z.of_nat index =? selected_choice_index c)%Z
     then _get_hover_text _pointer _marker ch (filtered_indices_at c index)
     else _get_normal_text _pointer _marker ch (filtered_indices_at c index))
  = row_text _pointer _marker c index ch.
Proof.
  unfold row_text.
  destruct (_ =? _)%Z; [apply hover_text_plain | apply normal_text_plain].
Qed.

Lemma format_rows_nonempty c index ch view :
  format_rows _pointer _marker c index (ch :: view) <> [].
Proof.
  cbn [format_rows]. destruct (_ =? _)%Z; discriminate.
Qed.

Lemma format_rows_text c (view : list (@choice V)) :
  forall index, view <> [] ->
    fragments_text (removelast (format_rows _pointer _marker c index view))
    = String.concat newline
        (imap (fun i => row_text _pointer _marker c (index + i)) view).
Proof.
  induction view as [|ch view IH]; intros index Hne; [congruence|].
  cbn [format_rows]. rewrite imap_cons, Nat.add_0_r.
  destruct view as [|ch' view].
  - cbn [format_rows imap String.concat].
    rewrite app_nil_r, removelast_last. apply row_fragments_text.
  - rewrite removelast_app by discriminate.
    rewrite removelast_app
      with (l := [("", newline)]) by apply format_rows_nonempty.
    rewrite !fragments_text_app, row_fragments_text, IH by discriminate.
    rewrite (imap_ext
               ((fun i => row_text _pointer _marker c (index + i)) ∘ S)
               (fun i => row_text _pointer _marker c (S index + i)))
      by (intros; cbn; f_equal; lia).
    reflexivity.
Qed.

(** X18.  What [_get_formatted_choices] shows, styles left out, is one
    line per row of the view, joined by line feeds with none at the end:
    the pointer on the row of the cursor and spaces on the others, the
    marker on enabled choices, the name.  An empty view shows
    nothing. *)
Theorem formatted_choices_text c :
  refs_valid c ->
  exists view fs,
    deref_all c (_filtered_choices c) = Val view /\
    _get_formatted_choices _pointer _marker c = Val fs /\
    fragments_text fs
    = String.concat newline (imap (row_text _pointer _marker c) view) /\
    (_filtered_choices c = [] -> fs = []).
Proof.
  intros Hrefs.
  destruct (deref_all_valid c _ Hrefs) as (view & Hview & Hlen).
  unfold _get_formatted_choices. rewrite Hview.
  exists view. eexists. split; [reflexivity|]. split; [reflexivity|].
  destruct view as [|ch view].
  - split; [reflexivity|]. reflexivity.
  - split.
    + destruct (format_rows _ _ _ _ _) eqn:Hrows;
        [now apply format_rows_nonempty in Hrows|].
      cbn [list_truthy]. rewrite <- Hrows.
      now rewrite (format_rows_text c (ch :: view) 0).
    + intros Hempty. rewrite Hempty in Hlen. discriminate.
Qed.

Lemma name_fragments_no_marker style ch indices :
  is_cursor_marker (style, "") = false ->
  List.filter is_cursor_marker
    (if negb (indices_truthy indices)
     then [(style, name ch)]
     else highlight style (default [] indices) 0 (name ch))
  = [].
Proof.
  intros Hstyle. destruct (negb _); [|now apply highlight_no_marker].
  unfold is_cursor_marker in *. cbn in *. now rewrite Hstyle.
Qed.

Lemma hover_marker_count ch indices :
  length (List.filter is_cursor_marker
            (_get_hover_text _pointer _marker ch indices)) = 1.
Proof.
  unfold _get_hover_text.
  now rewrite List.filter_app, name_fragments_no_marker.
Qed.

Lemma normal_marker_count ch indices :
  length (List.filter is_cursor_marker
            (_get_normal_text _pointer _marker ch indices)) = 0.
Proof.
  unfold _get_normal_text.
  now rewrite List.filter_app, name_fragments_no_marker.
Qed.

Lemma format_rows_marker_count c (view : list (@choice V)) :
  forall index,
    length (List.filter is_cursor_marker
              (format_rows _pointer _marker c index view))
    = if bool_decide (Z.of_nat index <= selected_choice_index c
                      < Z.of_nat (index + length view))%Z
      then 1 else 0.
Proof.
  induction view as [|ch view IH]; intros index.
  - cbn. case_bool_decide; [lia | reflexivity].
  - cbn [format_rows]. rewrite !List.filter_app, !length_app, IH.
    cbn [List.filter is_cursor_marker fst String.eqb length].
    destruct (_ =? _)%Z eqn:Heq.
    + rewrite hover_marker_count.
      repeat case_bool_decide; cbn [length] in *; lia.
    + rewrite normal_marker_count.
      repeat case_bool_decide; cbn [length] in *; lia.
Qed.

Lemma format_rows_snoc c (view : list (@choice V)) :
  forall index, view <> [] ->
    exists fs,
      format_rows _pointer _marker c index view = fs ++ [("", newline)].
Proof.
  induction view as [|ch view IH]; intros index Hne; [congruence|].
  cbn [format_rows]. destruct view as [|ch' view].
  - eexists. cbn [format_rows]. now rewrite app_nil_r.
  - destruct (IH (S index)) as [fs Hfs]; [discriminate|].
    rewrite Hfs. eexists. now rewrite !app_assoc.
Qed.

(** X19.  The rendered view holds the cursor position marker exactly
    once when the cursor is on a row of the view, and not at all
    otherwise, as with an empty view. *)
Theorem formatted_choices_cursor_marker c :
  refs_valid c ->
  exists fs,
    _get_formatted_choices _pointer _marker c = Val fs /\
    length (List.filter is_cursor_marker fs)
    = if bool_decide (0 <= selected_choice_index c < choice_count c)%Z
      then 1 else 0.
Proof.
  intros Hrefs.
  destruct (deref_all_valid c _ Hrefs) as (view & Hview & Hlen).
  unfold _get_formatted_choices. rewrite Hview.
  eexists. split; [reflexivity|].
  pose proof (format_rows_marker_count c view 0) as Hcount.
  cbn [Nat.add Z.of_nat] in Hcount. rewrite Hlen in Hcount.
  fold (choice_count c) in Hcount.
  destruct view as [|ch view]; [exact Hcount|].
  destruct (format_rows_snoc c (ch :: view) 0) as [fs Hfs]; [discriminate|].
  rewrite Hfs in Hcount |- *.
  rewrite List.filter_app, length_app in Hcount. cbn in Hcount.
  rewrite Nat.add_0_r in Hcount.
  rewrite removelast_last.
  destruct (list_truthy _) eqn:Htruthy; [exact Hcount|].
  destruct fs; discriminate.
Qed.

End RenderingProperties.

(** * The secret prompt *)

Lemma stars_for_replicate (s : string) :
  stars_for s
  = String.string_of_list_ascii
      (replicate (String.length s) (Ascii.ascii_of_nat 42)).
Proof.
  unfold stars_for, join_empty.
  induction s as [|x s IH]; [reflexivity|].
  cbn [String.list_ascii_of_string map foldr String.length replicate
       String.string_of_list_ascii].
  now rewrite IH.
Qed.

(** X20.  Without a transformer the secret prompt shows nothing for an
    empty or missing result, and otherwise a space and one star per
    character of the result, so that two results of the same length
    are shown alike. *)
Theorem secret_result_is_masked (s : string) :
  snd (snd (SecretPrompt_get_prompt_message false None)) = "" /\
  snd (snd (SecretPrompt_get_prompt_message false (Some s)))
  = (if str_truthy s
     then " " +:+ String.string_of_list_ascii
                    (replicate (String.length s) (Ascii.ascii_of_nat 42))
     else "") /\
  (forall s', String.length s' = String.length s ->
     SecretPrompt_get_prompt_message false (Some s')
     = SecretPrompt_get_prompt_message false (Some s)).
Proof.
  split; [reflexivity|]. split.
  - unfold SecretPrompt_get_prompt_message. cbn -[stars_for String.append].
    destruct (str_truthy s); [|reflexivity].
    now rewrite stars_for_replicate.
  - intros s' Hlen. unfold SecretPrompt_get_prompt_message.
    cbn -[stars_for String.append].
    rewrite !stars_for_replicate, Hlen.
    now destruct s, s'.
Qed.

(** * The further properties on the sample prompt *)

Lemma sample_match_in_range_refs query (cs : list (@choice string)) :
  Forall (fun r => r < length cs) (snd (sample_match_in_range query cs)).
Proof.
  unfold sample_match_in_range.
  destruct (sample_match query cs) as [indices refs]. cbn [snd].
  apply Forall_forall. intros r Hr.
  apply list_elem_of_In, in_map_iff in Hr as ([ix r'] & <- & Hin).
  apply filter_In in Hin as [_ Hlt]. cbn in *.
  now apply Nat.ltb_lt in Hlt.
Qed.

Lemma fruit_prompt_marked_refs_valid :
  refs_valid (content_control fruit_prompt_marked).
Proof. unfold refs_valid; cbn. repeat constructor. Qed.

Lemma init_builds_fresh_control_witness :
  map (fun ch => (name ch, value ch)) (choices fruit_control) = fruits /\
  Forall (fun ch => enabled ch = false) (choices fruit_control) /\
  (forall i ch, choices fruit_control !! i = Some ch -> index ch = i) /\
  _filtered_choices fruit_control = seq 0 (length fruits) /\
  _filtered_indices fruit_control = [] /\
  selected_choice_index fruit_control = 0%Z.
Proof.
  apply (init_builds_fresh_control fruits 0 fruit_control). reflexivity.
Defined.

Lemma cursor_on_a_row_after_any_run_witness :
  cursor_ok
    (content_control
       (state_of
          (run_actions sample_match_in_range accept_all
             [TextChange "ap"; KeyPress Down; KeyPress Down; KeyPress Tab]
             (fruit_prompt true)))).
Proof.
  apply (cursor_on_a_row_after_any_run sample_match_in_range accept_all
           fruits 0 fruit_control true
           [TextChange "ap"; KeyPress Down; KeyPress Down; KeyPress Tab]).
  - exact sample_match_in_range_refs.
  - reflexivity.
  - cbn. lia.
Defined.

Lemma down_up_step_and_wrap_witness :
  _handle_down (fruit_prompt_at false 2) = Ret tt (fruit_prompt_at false 0) /\
  _handle_up (fruit_prompt_at false 2) = Ret tt (fruit_prompt_at false 1).
Proof.
  apply (down_up_step_and_wrap (fruit_prompt_at false 2)).
  - discriminate.
  - unfold choice_count; cbn. lia.
Defined.

Lemma down_then_up_returns_witness :
  (_handle_down;; _handle_up) (fruit_prompt_at false 2)
  = Ret tt (fruit_prompt_at false 2) /\
  (_handle_up;; _handle_down) (fruit_prompt_at false 2)
  = Ret tt (fruit_prompt_at false 2).
Proof.
  apply (down_then_up_returns (fruit_prompt_at false 2)).
  - discriminate.
  - unfold choice_count; cbn. lia.
Defined.

Lemma handle_tab_twice_restores_witness :
  (_handle_tab;; _handle_tab) (fruit_prompt_at true 1)
  = Ret tt (fruit_prompt_at true 1).
Proof.
  destruct (fruit_prompt_at_ok true 1) as (_ & Hidx & Hrefs & Hcur); [lia|].
  apply (handle_tab_twice_restores (fruit_prompt_at true 1));
    [exact Hrefs | exact Hidx | exact Hcur | discriminate].
Defined.

Lemma tab_empty_view_raises_witness :
  key_binding accept_all Tab (fruit_prompt_xyz true)
  = Raise IndexError (fruit_prompt_xyz true) /\
  key_binding accept_all BackTab (fruit_prompt_xyz true)
  = Raise IndexError (fruit_prompt_xyz true).
Proof.
  apply (tab_empty_view_raises accept_all (fruit_prompt_xyz true));
    reflexivity.
Defined.

Lemma enter_multiselect_never_raises_witness :
  exists p',
    _handle_enter reject_all fruit_prompt_marked = Ret tt p' /\
    ((p' = with_invalid true fruit_prompt_marked) \/
     (exists values names,
        p' = answered_with (AList values) (SNames names) fruit_prompt_marked /\
        length values = length names)).
Proof.
  apply (enter_multiselect_never_raises reject_all fruit_prompt_marked).
  reflexivity.
Defined.

Lemma enter_multiselect_empty_view_witness :
  _handle_enter accept_all (fruit_prompt_xyz true)
  = Ret tt (answered_with (AList []) (SNames []) (fruit_prompt_xyz true)).
Proof.
  apply (enter_multiselect_empty_view accept_all (fruit_prompt_xyz true));
    try reflexivity.
  repeat constructor.
Defined.

Lemma toggle_all_true_then_enter_witness :
  exists p',
    (_toggle_all (Some true);; _handle_enter accept_all) (fruit_prompt true)
    = Ret tt p' /\
    app_result p'
    = Some (AList [Payload "apple"; Payload "banana"; Payload "grape"]) /\
    status p'
    = {| answered := true; result := SNames ["apple"; "banana"; "grape"] |}.
Proof.
  apply (toggle_all_true_then_enter accept_all (fruit_prompt true)).
  - reflexivity.
  - exact fruit_choices_no_separator.
  - reflexivity.
Defined.

Lemma enter_single_select_answers_witness :
  _handle_enter accept_all (fruit_prompt_at false 1)
  = Ret tt (answered_with (AValue (Payload "banana")) (SName "banana")
              (fruit_prompt_at false 1)).
Proof.
  apply (enter_single_select_answers accept_all (fruit_prompt_at false 1)
           (Choice "banana" (Payload "banana") false 1));
    try reflexivity.
  cbn. lia.
Defined.


Lemma single_select_keys_keep_choices_witness :
  choices (content_control
             (state_of (key_binding accept_all EscapeA (fruit_prompt false))))
  = fruit_choices.
Proof.
  apply (single_select_keys_keep_choices accept_all (fruit_prompt false)
           EscapeA).
  reflexivity.
Defined.

Lemma formatted_choices_text_witness :
  exists view fs,
    deref_all (content_control fruit_prompt_marked)
      (_filtered_choices (content_control fruit_prompt_marked)) = Val view /\
    _get_formatted_choices ">" "+" (content_control fruit_prompt_marked)
    = Val fs /\
    fragments_text fs
    = String.concat newline
        (imap (row_text ">" "+" (content_control fruit_prompt_marked)) view) /\
    (_filtered_choices (content_control fruit_prompt_marked) = [] -> fs = []).
Proof.
  apply (formatted_choices_text ">" "+" (content_control fruit_prompt_marked)).
  exact fruit_prompt_marked_refs_valid.
Defined.

Lemma formatted_choices_cursor_marker_witness :
  exists fs,
    _get_formatted_choices ">" "+" (content_control fruit_prompt_marked)
    = Val fs /\
    length (List.filter is_cursor_marker fs) = 1.
Proof.
  apply (formatted_choices_cursor_marker ">" "+"
           (content_control fruit_prompt_marked)).
  exact fruit_prompt_marked_refs_valid.
Defined.
